(** * gin-oidc: an OIDC relying-party middleware for gin

    A shallow embedding of [ginoidc.go]: the random state generator, the
    start-up resolution of the logout endpoint, and the three request
    handlers (auth gate, callback, logout), followed by the properties of
    the specification that were checked against them. *)

From Stdlib Require Import ZArith String Ascii List Lia.
From stdpp Require Import gmap strings list.

Local Open Scope string_scope.
Local Open Scope Z_scope.

(** ** Results of running Go code *)

(** A Go call either returns, panics (failed type assertion, nil
    dereference, negative [make]), or ends the process through
    [log.Fatal].  [OutOfFuel] is the model's own: the loop of
    [RandomString] has no bound in the source. *)
Inductive Outcome (A : Type) : Type :=
| Ret (a : A)
| Panic (msg : string)
| Fatal (msg : string)
| OutOfFuel.
Arguments Ret {A} a.
Arguments Panic {A} msg.
Arguments Fatal {A} msg.
Arguments OutOfFuel {A}.

(** Go's [error]: [None] is [nil], [Some e] an error whose [Error()] is [e]. *)
Definition error : Type := option string.

(** Go's [(T, error)] pairs. *)
Inductive result (A : Type) : Type :=
| Ok (a : A)
| Err (e : string).
Arguments Ok {A} a.
Arguments Err {A} e.

(** ** The random token generator *)

Module Rand.

(** [src] is a process-wide [rand.Source]; the model sees it as the
    sequence of values its successive [Int63()] calls return, and threads
    the number of calls made so far. *)
Definition Source : Type := nat -> Z.

Definition letterBytes : string :=
  "abcdefghijklmnopqrstuvwxyzABCDEFGHIJKLMNOPQRSTUVWXYZ".
Definition letterIdxBits : Z := 6.
Definition letterIdxMask : Z := Z.shiftl 1 letterIdxBits - 1.
Definition letterIdxMax : Z := 63 / letterIdxBits.

(** [len(letterBytes)] and [letterBytes[idx]]. *)
Definition len (s : string) : Z := Z.of_nat (String.length s).
Definition byteAt (s : string) (idx : Z) : ascii :=
  nth (Z.to_nat idx) (list_ascii_of_string s) Ascii.zero.

(** The loop variables of [RandomString]: the byte slice [b], the index
    [i], the cached draw, the number of 6-bit chunks left in it, and the
    number [pos] of [Int63()] calls made. *)
Record LoopState : Type := mkLoop {
  b : list ascii;
  i : Z;
  cache : Z;
  remain : Z;
  pos : nat
}.

(** One iteration of the body of the [for] loop. *)
Definition body (src : Source) (st : LoopState) : LoopState :=
  let '(cache1, remain1, pos1) :=
    if remain st =? 0 then (src (pos st), letterIdxMax, S (pos st))
    else (cache st, remain st, pos st) in
  let idx := Z.land cache1 letterIdxMask in
  let '(b1, i1) :=
    if idx <? len letterBytes
    then (<[Z.to_nat (i st) := byteAt letterBytes idx]> (b st), i st - 1)
    else (b st, i st) in
  mkLoop b1 i1 (Z.shiftr cache1 letterIdxBits) (remain1 - 1) pos1.

(** [for ...; i >= 0; { body }]. *)
Fixpoint loop (fuel : nat) (src : Source) (st : LoopState) : option LoopState :=
  if i st >=? 0 then
    match fuel with
    | O => None
    | S fuel' => loop fuel' src (body src st)
    end
  else Some st.

(** [RandomString(n)], started when [p] draws have been made; returns the
    string and the new number of draws.  [make([]byte, n)] panics for a
    negative [n]. *)
Definition RandomString (fuel : nat) (src : Source) (n : Z) (p : nat)
  : Outcome (string * nat) :=
  if n <? 0 then Panic "makeslice: len out of range"
  else
    let b0 := replicate (Z.to_nat n) Ascii.zero in
    match loop fuel src (mkLoop b0 (n - 1) (src p) letterIdxMax (S p)) with
    | Some st => Ret (string_of_list_ascii (b st), pos st)
    | None => OutOfFuel
    end.

(** The [j]-th 6-bit chunk of a draw, and whether it indexes a letter. *)
Definition chunk (x : Z) (j : Z) : Z :=
  Z.land (Z.shiftr x (letterIdxBits * j)) letterIdxMask.
Definition accepted (x : Z) (j : Z) : Prop := chunk x j < len letterBytes.

(** A source that, from any point on, eventually yields a draw one of whose
    [letterIdxMax] chunks is below [len(letterBytes)].  A source without
    this property keeps the loop of [RandomString] running for ever. *)
Definition productive (src : Source) : Prop :=
  forall p : nat, exists q j, (p <= q)%nat /\ 0 <= j < letterIdxMax /\ accepted (src q) j.

(** The index the next iteration examines, and the iteration that rejects
    it: the reading side of [body], which does not depend on [b] and [i]. *)
Definition idxOf (src : Source) (st : LoopState) : Z :=
  Z.land (if remain st =? 0 then src (pos st) else cache st) letterIdxMask.
Definition skip (src : Source) (st : LoopState) : LoopState :=
  let '(cache1, remain1, pos1) :=
    if remain st =? 0 then (src (pos st), letterIdxMax, S (pos st))
    else (cache st, remain st, pos st) in
  mkLoop (b st) (i st) (Z.shiftr cache1 letterIdxBits) (remain1 - 1) pos1.

Fixpoint iterate {A} (k : nat) (f : A -> A) (x : A) : A :=
  match k with
  | O => x
  | S k' => iterate k' f (f x)
  end.

(** The cache holds what is left of draw [q] after [j] chunks were read. *)
Definition fed (src : Source) (st : LoopState) (q j : nat) : Prop :=
  pos st = S q /\ (j <= 10)%nat /\ remain st = 10 - Z.of_nat j /\
  cache st = Z.shiftr (src q) (letterIdxBits * Z.of_nat j).

Definition isLetter (c : ascii) : Prop := In c (list_ascii_of_string letterBytes).

(** Since the call started at draw [p] for [n] letters, the letters
    written never outnumber the chunks read. *)
Definition frugal (n : Z) (p : nat) (st : LoopState) : Prop :=
  -1 <= i st /\ 0 <= remain st <= 10 /\ (S p <= pos st)%nat /\
  n - 1 - i st <= 10 * (Z.of_nat (pos st) - Z.of_nat (S p)) + (10 - remain st).

End Rand.

(** ** Values, sessions, requests *)

(** The dynamic values ([interface{}]) a session can hold.  [VInt] stands
    for the values that are neither [nil], a [bool] nor a [string]. *)
Inductive Value : Type :=
| VNil
| VBool (b : bool)
| VString (s : string)
| VInt (n : Z).

Definition isNil (v : Value) : bool :=
  match v with VNil => true | _ => false end.

(** The checked assertion [s, ok := v.(string)]. *)
Definition stringOk (v : Value) : string * bool :=
  match v with VString s => (s, true) | _ => ("", false) end.

(** [session.Values]: [Get] of a missing key yields [nil], [Set] stores
    the value under the key (also when the value is [nil]). *)
Definition sessGet (s : gmap string Value) (k : string) : Value :=
  default VNil (s !! k).
Definition sessSet (k : string) (v : Value) (s : gmap string Value)
  : gmap string Value := <[k := v]> s.

(** The fields of [url.URL] the middleware touches. *)
Record URL : Type := mkURL {
  Scheme : string;
  Host : string;
  Path : string;
  RawQuery : string;
  Fragment : string
}.

Definition setRawQuery (u : URL) (q : string) : URL :=
  mkURL (Scheme u) (Host u) (Path u) q (Fragment u).
Definition setPath (u : URL) (p : string) : URL :=
  mkURL (Scheme u) (Host u) p (RawQuery u) (Fragment u).

(** [http.Request]: its URL and the parsed query values of that URL. *)
Record HttpRequest : Type := mkRequest {
  reqURL : URL;
  reqQuery : gmap string (list string)
}.

(** [gin.Context], with the session that [sessions.Default(c)] returns,
    the errors pushed by [c.Error], the flag set by [c.Abort], and the
    status and [Location] written by [c.Redirect]. *)
Record GinContext : Type := mkCtx {
  Request : HttpRequest;
  session : gmap string Value;
  Errors : list string;
  aborted : bool;
  response : option (Z * string)
}.

Definition withSession (c : GinContext) (s : gmap string Value) : GinContext :=
  mkCtx (Request c) s (Errors c) (aborted c) (response c).

(** [c.Query(key)]: the first value of the key, or the empty string. *)
Definition Query (c : GinContext) (key : string) : string :=
  match reqQuery (Request c) !! key with
  | Some (v :: _) => v
  | _ => ""
  end.

Record InitParams : Type := mkInitParams {
  ClientId : string;
  ClientSecret : string;
  ClientName : string;
  Issuer : URL;
  ClientUrl : URL;
  Scopes : list string;
  ErrorHandler : GinContext -> GinContext;
  CallbackPath : string;
  LogoutUrl : option URL;
  PostLogoutUrl : URL
}.

Definition StatusFound : Z := 302.

(** What a handler does, in order: the calls it makes on the session, on
    the gin context and on the provider. *)
Inductive Event : Type :=
| EvSet (k : string) (v : Value)
| EvSave (e : error)
| EvError (msg : string)
| EvErrorHandler
| EvAbort
| EvNext
| EvRedirect (code : Z) (location : string)
| EvExchange (code : string) (ok : bool)
| EvVerify (rawIDToken : string) (ok : bool).

(** The state a handler runs in: the gin context, the log of its calls
    (out of reach of the configured error handler and of the handlers
    behind [c.Next]), and the number of draws made from [src]. *)
Record World : Type := mkWorld {
  ctx : GinContext;
  trace : list Event;
  draws : nat
}.

Definition M (A : Type) : Type := World -> Outcome A * World.

Definition ret {A} (a : A) : M A := fun w => (Ret a, w).
Definition bind {A B} (m : M A) (k : A -> M B) : M B :=
  fun w =>
    match m w with
    | (Ret a, w') => k a w'
    | (Panic msg, w') => (Panic msg, w')
    | (Fatal msg, w') => (Fatal msg, w')
    | (OutOfFuel, w') => (OutOfFuel, w')
    end.
Definition panic {A} (msg : string) : M A := fun w => (Panic msg, w).
Definition logFatal {A} (msg : string) : M A := fun w => (Fatal msg, w).

Declare Scope go_scope.
Delimit Scope go_scope with go.
Notation "'let*' x ':=' m 'in' k" := (bind m (fun x => k))
  (at level 10, x name, m at level 100, k at level 200) : go_scope.
Notation "m '>>' k" := (bind m (fun _ => k))
  (at level 100, k at level 200, right associativity) : go_scope.
Local Open Scope go_scope.

Definition emit (e : Event) (w : World) : World :=
  mkWorld (ctx w) (trace w ++ [e]) (draws w).
Definition onCtx (f : GinContext -> GinContext) (w : World) : World :=
  mkWorld (f (ctx w)) (trace w) (draws w).

(** The unchecked assertions [v.(bool)] and [v.(string)]. *)
Definition assertBool (v : Value) : M bool :=
  match v with
  | VBool b => ret b
  | _ => panic "interface conversion: interface {} is not bool"
  end.
Definition assertString (v : Value) : M string :=
  match v with
  | VString s => ret s
  | _ => panic "interface conversion: interface {} is not string"
  end.

Definition sessionGet (k : string) : M Value :=
  fun w => (Ret (sessGet (session (ctx w)) k), w).
Definition sessionSet (k : string) (v : Value) : M unit :=
  fun w => (Ret tt, emit (EvSet k v)
                      (onCtx (fun c => withSession c (sessSet k v (session c))) w)).

Definition ginQuery (key : string) : M string :=
  fun w => (Ret (Query (ctx w) key), w).
Definition requestURL : M URL :=
  fun w => (Ret (reqURL (Request (ctx w))), w).
(** [c.Error(err)], [c.Abort()] and [c.Redirect(code, location)] on the
    context. *)
Definition ctxError (msg : string) (c : GinContext) : GinContext :=
  mkCtx (Request c) (session c) (Errors c ++ [msg]) (aborted c) (response c).
Definition ctxAbort (c : GinContext) : GinContext :=
  mkCtx (Request c) (session c) (Errors c) true (response c).
Definition ctxRedirect (code : Z) (location : string) (c : GinContext) : GinContext :=
  mkCtx (Request c) (session c) (Errors c) (aborted c) (Some (code, location)).

Definition ginError (msg : string) : M unit :=
  fun w => (Ret tt, emit (EvError msg) (onCtx (ctxError msg) w)).
Definition ginAbort : M unit :=
  fun w => (Ret tt, emit EvAbort (onCtx ctxAbort w)).
Definition ginRedirect (code : Z) (location : string) : M unit :=
  fun w => (Ret tt, emit (EvRedirect code location) (onCtx (ctxRedirect code location) w)).
Definition callErrorHandler (i : InitParams) : M unit :=
  fun w => (Ret tt, emit EvErrorHandler (onCtx (ErrorHandler i) w)).

Definition errOf {A} (r : result A) : error :=
  match r with Ok _ => None | Err e => Some e end.
Definition isOk {A} (r : result A) : bool :=
  match r with Ok _ => true | Err _ => false end.

Definition handleError (i : InitParams) (err : error) (message : string) : M bool :=
  match err with
  | None => ret false
  | Some e =>
      ginError (message +:+ " [" +:+ e +:+ "]") >>
      callErrorHandler i >>
      ginAbort >>
      ret true
  end.

Definition handleOk (i : InitParams) (ok : bool) (message : string) : M bool :=
  if ok then ret false
  else handleError i (Some "not ok") message.

(** ** The middleware *)

(** [oauth2.Token], [oauth2.Endpoint] and [oauth2.Config]. *)
Record Token : Type := mkToken {
  AccessToken : string;
  RefreshToken : string;
  raw : gmap string Value
}.
Definition Extra (t : Token) (key : string) : Value := default VNil (raw t !! key).

Record Endpoint : Type := mkEndpoint {
  AuthURL : string;
  TokenURL : string
}.

Record Config : Type := mkConfig {
  ClientID : string;
  cfgClientSecret : string;
  cfgEndpoint : Endpoint;
  RedirectURL : string;
  cfgScopes : list string
}.

Section Middleware.

(** The collaborators outside the repository: [net/url], the session
    store behind [Save], the handlers that [c.Next] runs, go-oidc's
    provider, verifier and ID token, [oauth2]'s exchange and authorization
    URL, [encoding/json], and the random source. *)
Variable URLString : URL -> string.
Variable urlParse : string -> result URL.
Variable valuesEncode : gmap string (list string) -> string.
Variable storeSave : gmap string Value -> error.
Variable nextHandlers : GinContext -> GinContext.
Variable Provider : Type.
Variable IDTokenVerifier : Type.
Variable IDToken : Type.
Variable ClaimsMap : Type.
Variable NewProvider : string -> result Provider.
Variable providerVerifier : Provider -> string -> IDTokenVerifier.
Variable providerEndpoint : Provider -> Endpoint.
Variable providerClaims : Provider -> result (gmap string Value).
Variable Verify : IDTokenVerifier -> string -> result IDToken.
Variable Exchange : Config -> string -> result Token.
Variable AuthCodeURL : Config -> string -> string.
Variable idTokenClaims : IDToken -> result ClaimsMap.
Variable jsonMarshal : ClaimsMap -> result string.
Variable src : Rand.Source.

Definition sessionSave : M error :=
  fun w => let e := storeSave (session (ctx w)) in (Ret e, emit (EvSave e) w).
Definition ginNext : M unit :=
  fun w => (Ret tt, emit EvNext (onCtx nextHandlers w)).
Definition configExchange (config : Config) (code : string) : M (result Token) :=
  fun w => let r := Exchange config code in (Ret r, emit (EvExchange code (isOk r)) w).
Definition verifierVerify (verifier : IDTokenVerifier) (rawIDToken : string)
  : M (result IDToken) :=
  fun w => let r := Verify verifier rawIDToken in
           (Ret r, emit (EvVerify rawIDToken (isOk r)) w).
Definition randomString (fuel : nat) (n : Z) : M string :=
  fun w =>
    match Rand.RandomString fuel src n (draws w) with
    | Ret (s, p) => (Ret s, mkWorld (ctx w) (trace w) p)
    | Panic msg => (Panic msg, w)
    | Fatal msg => (Fatal msg, w)
    | OutOfFuel => (OutOfFuel, w)
    end.

(** [strings.TrimSuffix(s, "/")]. *)
Definition trimSlash (s : string) : string :=
  match rev (list_ascii_of_string s) with
  | c :: r => if Ascii.eqb c "/"%char
              then string_of_list_ascii (rev r) else s
  | [] => s
  end.

Definition withClientUrl (i : InitParams) (u : URL) : InitParams :=
  mkInitParams (ClientId i) (ClientSecret i) (ClientName i) (Issuer i) u
    (Scopes i) (ErrorHandler i) (CallbackPath i) (LogoutUrl i) (PostLogoutUrl i).
Definition withLogoutUrl (i : InitParams) (u : URL) : InitParams :=
  mkInitParams (ClientId i) (ClientSecret i) (ClientName i) (Issuer i) (ClientUrl i)
    (Scopes i) (ErrorHandler i) (CallbackPath i) (Some u) (PostLogoutUrl i).

(** [initVerifierAndConfig(&i)]: the updated parameters come back with the
    verifier and the configuration.  The text of the fatal messages is
    shortened to its fixed part and the error. *)
Definition initVerifierAndConfig (i : InitParams)
  : Outcome (InitParams * IDTokenVerifier * Config) :=
  match NewProvider (URLString (Issuer i)) with
  | Err e => Fatal ("Failed to init OIDC provider. Error: " +:+ e)
  | Ok provider =>
      let verifier := providerVerifier provider (ClientId i) in
      let endpoint := providerEndpoint provider in
      let i := withClientUrl i (setPath (ClientUrl i) (CallbackPath i)) in
      let config := mkConfig (ClientId i) (ClientSecret i) endpoint
                      (URLString (ClientUrl i)) (Scopes i) in
      match providerClaims provider with
      | Err e => Fatal ("Failed to parse Issuer discovery endpoint.  Error: " +:+ e)
      | Ok issuerMetadata =>
          match issuerMetadata !! "end_session_endpoint" with
          | Some logout =>
              match logout with
              | VString s =>
                  match urlParse s with
                  | Err e => Fatal ("Funny business getting end_session_endpoint. Error: " +:+ e)
                  | Ok logoutUrl => Ret (withLogoutUrl i logoutUrl, verifier, config)
                  end
              | _ => Panic "interface conversion: interface {} is not string"
              end
          | None =>
              match urlParse (trimSlash (URLString (Issuer i))
                                +:+ "protocol/openid-connect/logout") with
              | Err e => Fatal ("Could not set default logout. Error: " +:+ e)
              | Ok logoutUrl => Ret (withLogoutUrl i logoutUrl, verifier, config)
              end
          end
      end
  end.

Definition logoutHandler (i : InitParams) : M unit :=
  let* rawIDToken := sessionGet "oidcIDToken" in
  let* skipProviderLogout :=
    (if isNil rawIDToken then ret true
     else let* s := assertString rawIDToken in
          ret (String.eqb s "")) in
  sessionSet "oidcAuthorized" (VBool false) >>
  sessionSet "oidcClaims" VNil >>
  sessionSet "oidcState" VNil >>
  sessionSet "oidcOriginalRequestUrl" VNil >>
  sessionSet "oidcIDToken" VNil >>
  let* _ := sessionSave in
  if skipProviderLogout : bool then
    ginRedirect StatusFound (URLString (PostLogoutUrl i))
  else
    match LogoutUrl i with
    | None => panic "invalid memory address or nil pointer dereference"
    | Some logoutUrl =>
        let* hint := assertString rawIDToken in
        let q := valuesEncode
                   (<["post_logout_redirect_uri" := [URLString (PostLogoutUrl i)]]>
                      (<["id_token_hint" := [hint]]> ∅)) in
        ginRedirect StatusFound (URLString (setRawQuery logoutUrl q))
    end.

Definition callbackHandler (i : InitParams) (verifier : IDTokenVerifier)
    (config : Config) : M unit :=
  let* v := sessionGet "oidcState" in
  let '(state, ok) := stringOk v in
  let* stop := handleOk i ok "failed to parse state" in
  if stop : bool then ret tt else
  let* q := ginQuery "state" in
  let* stop := handleOk i (String.eqb q state)
                 "get 'state' param didn't match local 'state' value" in
  if stop : bool then ret tt else
  let* code := ginQuery "code" in
  let* oauth2Token := configExchange config code in
  let* stop := handleError i (errOf oauth2Token) "failed to exchange token" in
  if stop : bool then ret tt else
  match oauth2Token with
  | Err _ => ret tt
  | Ok oauth2Token =>
  let '(rawIDToken, ok) := stringOk (Extra oauth2Token "id_token") in
  let* stop := handleOk i ok "no id_token field in oauth2 token" in
  if stop : bool then ret tt else
  let* idToken := verifierVerify verifier rawIDToken in
  let* stop := handleError i (errOf idToken) "failed to verify id token" in
  if stop : bool then ret tt else
  match idToken with
  | Err _ => ret tt
  | Ok idToken =>
  let claims := idTokenClaims idToken in
  let* stop := handleError i (errOf claims) "failed to parse id token" in
  if stop : bool then ret tt else
  match claims with
  | Err _ => ret tt
  | Ok claims =>
  let claimsJson := jsonMarshal claims in
  let* stop := handleError i (errOf claimsJson) "failed to marshal id token: " in
  if stop : bool then ret tt else
  match claimsJson with
  | Err _ => ret tt
  | Ok claimsJson =>
  let* v := sessionGet "oidcOriginalRequestUrl" in
  let '(originalRequestUrl, ok) := stringOk v in
  let* stop := handleOk i ok "failed to parse originalRequestUrl" in
  if stop : bool then ret tt else
  sessionSet "oidcAuthorized" (VBool true) >>
  sessionSet "oidcState" VNil >>
  sessionSet "oidcOriginalRequestUrl" VNil >>
  sessionSet "oidcClaims" (VString claimsJson) >>
  sessionSet "oidcIDToken" (VString rawIDToken) >>
  let* err := sessionSave in
  let* stop := handleError i err "failed save sessions." in
  if stop : bool then ret tt else
  ginRedirect StatusFound originalRequestUrl
  end end end end.

Definition protectMiddleware (fuel : nat) (i : InitParams)
    (verifier : IDTokenVerifier) (config : Config) : M unit :=
  let* authorized := sessionGet "oidcAuthorized" in
  let* isAuthorized :=
    (if isNil authorized then ret false else assertBool authorized) in
  let* url := requestURL in
  if (isAuthorized || String.eqb (Path url) (CallbackPath i))%bool then
    let* rawIDToken := sessionGet "oidcIDToken" in
    let* nonEmpty :=
      (if isNil rawIDToken then ret false
       else let* s := assertString rawIDToken in
            ret (negb (String.eqb s ""))) in
    let* stop :=
      (if nonEmpty : bool then
         let* tok := assertString rawIDToken in
         let* r := verifierVerify verifier tok in
         handleError i (errOf r) "failed to verify id token"
       else ret false) in
    if stop : bool then ret tt else ginNext
  else
    let* state := randomString fuel 16 in
    sessionSet "oidcAuthorized" (VBool false) >>
    sessionSet "oidcState" (VString state) >>
    sessionSet "oidcOriginalRequestUrl" (VString (URLString url)) >>
    sessionSet "oidcIDToken" VNil >>
    let* err := sessionSave in
    match err with
    | Some e => logFatal ("failed save sessions. error: " +:+ e)
    | None => ginRedirect StatusFound (AuthCodeURL config state)
    end.

End Middleware.

(** ** Construction *)

Section Construction.

Context (URLString : URL -> string)
        (urlParse : string -> result URL)
        (valuesEncode : gmap string (list string) -> string)
        (storeSave : gmap string Value -> error)
        (nextHandlers : GinContext -> GinContext)
        (Provider IDTokenVerifier IDToken ClaimsMap : Type)
        (NewProvider : string -> result Provider)
        (providerVerifier : Provider -> string -> IDTokenVerifier)
        (providerEndpoint : Provider -> Endpoint)
        (providerClaims : Provider -> result (gmap string Value))
        (Verify : IDTokenVerifier -> string -> result IDToken)
        (Exchange : Config -> string -> result Token)
        (AuthCodeURL : Config -> string -> string)
        (idTokenClaims : IDToken -> result ClaimsMap)
        (jsonMarshal : ClaimsMap -> result string)
        (src : Rand.Source).

(** [OidcMiddleware]: the embedded [InitParams], the verifier, the
    configuration and the three handlers.  The auth handler takes the fuel
    of its [RandomString] call. *)
Record OidcMiddleware : Type := mkMiddleware {
  Params : InitParams;
  Verifier : IDTokenVerifier;
  OAuthConfig : Config;
  AuthHandler : nat -> M unit;
  LogoutHandler : M unit;
  CallbackHandler : M unit
}.

(** [New(i)]: [i] is a copy that [initVerifierAndConfig(&i)] updates before
    the handlers are built from it. *)
Definition New (i : InitParams) : Outcome OidcMiddleware :=
  match initVerifierAndConfig URLString urlParse Provider IDTokenVerifier
          NewProvider providerVerifier providerEndpoint providerClaims i with
  | Ret (i, verifier, config) =>
      let authHandler := fun fuel =>
        protectMiddleware URLString storeSave nextHandlers IDTokenVerifier IDToken
          Verify AuthCodeURL src fuel i verifier config in
      let logoutHandler := logoutHandler URLString valuesEncode storeSave i in
      let callbackHandler :=
        callbackHandler storeSave IDTokenVerifier IDToken ClaimsMap Verify
          Exchange idTokenClaims jsonMarshal i verifier config in
      Ret (mkMiddleware i verifier config authHandler logoutHandler callbackHandler)
  | Panic msg => Panic msg
  | Fatal msg => Fatal msg
  | OutOfFuel => OutOfFuel
  end.

End Construction.

(** ** Vocabulary of the specification *)

(** The data model types [oidcAuthorized] as a bool and [oidcIDToken] as
    a string, each possibly absent. *)
Definition boolOrNil (v : Value) : bool :=
  match v with VNil | VBool _ => true | _ => false end.
Definition stringOrNil (v : Value) : bool :=
  match v with VNil | VString _ => true | _ => false end.
Definition wellTyped (s : gmap string Value) : Prop :=
  boolOrNil (sessGet s "oidcAuthorized") = true /\
  stringOrNil (sessGet s "oidcIDToken") = true.

(** The session after the gate has started a login, after the callback
    has committed one, and after logout. *)
Definition pendingLogin (state url : string) (s : gmap string Value) : gmap string Value :=
  sessSet "oidcIDToken" VNil
    (sessSet "oidcOriginalRequestUrl" (VString url)
       (sessSet "oidcState" (VString state)
          (sessSet "oidcAuthorized" (VBool false) s))).
Definition committed (claimsJson rawIDToken : string) (s : gmap string Value)
  : gmap string Value :=
  sessSet "oidcIDToken" (VString rawIDToken)
    (sessSet "oidcClaims" (VString claimsJson)
       (sessSet "oidcOriginalRequestUrl" VNil
          (sessSet "oidcState" VNil
             (sessSet "oidcAuthorized" (VBool true) s)))).
Definition cleared (s : gmap string Value) : gmap string Value :=
  sessSet "oidcIDToken" VNil
    (sessSet "oidcOriginalRequestUrl" VNil
       (sessSet "oidcState" VNil
          (sessSet "oidcClaims" VNil
             (sessSet "oidcAuthorized" (VBool false) s)))).

(** The calls behind those sessions, in the order of the source. *)
Definition pendingLoginSets (state url : string) : list Event :=
  [EvSet "oidcAuthorized" (VBool false); EvSet "oidcState" (VString state);
   EvSet "oidcOriginalRequestUrl" (VString url); EvSet "oidcIDToken" VNil].
Definition commitSets (claimsJson rawIDToken : string) : list Event :=
  [EvSet "oidcAuthorized" (VBool true); EvSet "oidcState" VNil;
   EvSet "oidcOriginalRequestUrl" VNil; EvSet "oidcClaims" (VString claimsJson);
   EvSet "oidcIDToken" (VString rawIDToken)].
Definition clearSets : list Event :=
  [EvSet "oidcAuthorized" (VBool false); EvSet "oidcClaims" VNil;
   EvSet "oidcState" VNil; EvSet "oidcOriginalRequestUrl" VNil;
   EvSet "oidcIDToken" VNil].

(** What [handleError] leaves behind for a non-nil error: the message is
    pushed, the configured handler runs on the context, the request is
    aborted. *)
Definition failed (i : InitParams) (msg : string) (w : World) : World :=
  mkWorld (ctxAbort (ErrorHandler i (ctxError msg (ctx w))))
          (trace w ++ [EvError msg; EvErrorHandler; EvAbort]) (draws w).

(** The world after the calls [evs] that leave the context alone. *)
Definition emits (evs : list Event) (w : World) : World :=
  mkWorld (ctx w) (trace w ++ evs) (draws w).

Definition isSet (e : Event) : bool :=
  match e with EvSet _ _ => true | _ => false end.
Definition isErrorHandlerCall (e : Event) : bool :=
  match e with EvErrorHandler => true | _ => false end.
Definition isNext (e : Event) : bool :=
  match e with EvNext => true | _ => false end.
Definition isProviderCall (e : Event) : bool :=
  match e with EvExchange _ _ | EvVerify _ _ => true | _ => false end.
Definition isRedirect (e : Event) : bool :=
  match e with EvRedirect _ _ => true | _ => false end.
Definition isSave (e : Event) : bool :=
  match e with EvSave _ => true | _ => false end.
Definition isAbort (e : Event) : bool :=
  match e with EvAbort => true | _ => false end.
Definition count (f : Event -> bool) (evs : list Event) : nat :=
  length (filter (fun e => f e = true) evs).

(** The session fields of the contract. *)
Definition knownKeys : list string :=
  ["oidcAuthorized"; "oidcState"; "oidcOriginalRequestUrl"; "oidcClaims";
   "oidcIDToken"].

(** The invariant of the data model: an authorized session holds a
    non-empty ID token that some earlier call verified. *)
Definition sessionInv (w : World) : Prop :=
  sessGet (session (ctx w)) "oidcAuthorized" = VBool true ->
  exists tok, sessGet (session (ctx w)) "oidcIDToken" = VString tok /\
              tok <> "" /\ In (EvVerify tok true) (trace w).

(** ** How a handler can end *)

Section Ends.

Context (nextHandlers : GinContext -> GinContext)
        (IDTokenVerifier IDToken : Type)
        (Verify : IDTokenVerifier -> string -> result IDToken).

(** The callback always returns.  Either it stopped at one of its checks
    before any [Set] (the context handed to the error handler is the
    incoming one), or it committed a verified ID token and then redirected,
    or it committed and the save failed. *)
Inductive CallbackEnd (i : InitParams) (verifier : IDTokenVerifier) (w : World)
  : World -> Prop :=
| CallbackRejected msg evs :
    count isSet evs = 0%nat ->
    CallbackEnd i verifier w (failed i msg (emits evs w))
| CallbackCommitted raw idt cj url evs :
    Verify verifier raw = Ok idt ->
    In (EvVerify raw true) evs ->
    CallbackEnd i verifier w
      (emits evs (onCtx (fun c => ctxRedirect StatusFound url
                           (withSession c (committed cj raw (session c)))) w))
| CallbackSaveFailed raw idt cj msg evs :
    Verify verifier raw = Ok idt ->
    In (EvVerify raw true) evs ->
    CallbackEnd i verifier w
      (failed i msg
         (emits evs (onCtx (fun c => withSession c
                              (committed cj raw (session c))) w))).

(** The gate panics only on an ill-typed session; otherwise it lets the
    request through, stops it through the error handler, runs out of fuel
    in [RandomString], or starts a login (returning, or dying in
    [log.Fatal] when the save fails). *)
Inductive GateEnd (i : InitParams) (w : World) : Outcome unit * World -> Prop :=
| GatePanicked msg :
    ~ wellTyped (session (ctx w)) ->
    GateEnd i w (Panic msg, w)
| GatePassed evs :
    count isSet evs = 0%nat ->
    GateEnd i w (Ret tt, emit EvNext (onCtx nextHandlers (emits evs w)))
| GateRejected msg evs :
    count isSet evs = 0%nat ->
    GateEnd i w (Ret tt, failed i msg (emits evs w))
| GateOutOfFuel :
    GateEnd i w (OutOfFuel, w)
| GateStarted o w' state url evs :
    (forall msg, o <> Panic msg) ->
    state <> "" ->
    session (ctx w') = pendingLogin state url (session (ctx w)) ->
    trace w' = (trace w ++ evs)%list ->
    GateEnd i w (o, w').

(** Logout panics on an ill-typed [oidcIDToken] before touching the
    session; otherwise the session is cleared, and only a nil
    [LogoutUrl] can still make it panic. *)
Inductive LogoutEnd (i : InitParams) (w : World) : Outcome unit * World -> Prop :=
| LogoutPanicked msg :
    stringOrNil (sessGet (session (ctx w)) "oidcIDToken") = false ->
    LogoutEnd i w (Panic msg, w)
| LogoutCleared o w' evs :
    o = Ret tt \/ (LogoutUrl i = None /\ exists msg, o = Panic msg) ->
    session (ctx w') = cleared (session (ctx w)) ->
    trace w' = (trace w ++ evs)%list ->
    LogoutEnd i w (o, w').

End Ends.

(** ** When the callback commits *)

Section Ready.

Context (IDTokenVerifier IDToken ClaimsMap : Type)
        (Verify : IDTokenVerifier -> string -> result IDToken)
        (Exchange : Config -> string -> result Token)
        (idTokenClaims : IDToken -> result ClaimsMap)
        (jsonMarshal : ClaimsMap -> result string).

(** Every check of the callback before the commit succeeds, with [raw] the
    ID token and [cj] the serialised claims. *)
Definition callbackReady (verifier : IDTokenVerifier) (config : Config)
    (w : World) (raw cj : string) : Prop :=
  exists tok idt cl url,
    sessGet (session (ctx w)) "oidcState" = VString (Query (ctx w) "state") /\
    Exchange config (Query (ctx w) "code") = Ok tok /\
    Extra tok "id_token" = VString raw /\
    Verify verifier raw = Ok idt /\
    idTokenClaims idt = Ok cl /\
    jsonMarshal cl = Ok cj /\
    sessGet (session (ctx w)) "oidcOriginalRequestUrl" = VString url.

(** One of the checks after the state check fails: the exchange, the
    [id_token] field, the verification, the claims, their serialisation,
    or the stored original URL. *)
Inductive CallbackFailsLater (verifier : IDTokenVerifier) (config : Config)
    (w : World) : Prop :=
| FailsExchange e :
    Exchange config (Query (ctx w) "code") = Err e ->
    CallbackFailsLater verifier config w
| FailsIdToken tok :
    Exchange config (Query (ctx w) "code") = Ok tok ->
    (forall raw, Extra tok "id_token" <> VString raw) ->
    CallbackFailsLater verifier config w
| FailsVerify tok raw e :
    Exchange config (Query (ctx w) "code") = Ok tok ->
    Extra tok "id_token" = VString raw ->
    Verify verifier raw = Err e ->
    CallbackFailsLater verifier config w
| FailsClaims tok raw idt e :
    Exchange config (Query (ctx w) "code") = Ok tok ->
    Extra tok "id_token" = VString raw ->
    Verify verifier raw = Ok idt ->
    idTokenClaims idt = Err e ->
    CallbackFailsLater verifier config w
| FailsMarshal tok raw idt cl e :
    Exchange config (Query (ctx w) "code") = Ok tok ->
    Extra tok "id_token" = VString raw ->
    Verify verifier raw = Ok idt ->
    idTokenClaims idt = Ok cl ->
    jsonMarshal cl = Err e ->
    CallbackFailsLater verifier config w
| FailsOriginalUrl tok raw idt cl cj :
    Exchange config (Query (ctx w) "code") = Ok tok ->
    Extra tok "id_token" = VString raw ->
    Verify verifier raw = Ok idt ->
    idTokenClaims idt = Ok cl ->
    jsonMarshal cl = Ok cj ->
    (forall url, sessGet (session (ctx w)) "oidcOriginalRequestUrl" <> VString url) ->
    CallbackFailsLater verifier config w.

End Ready.

(** The calls a callback can log, in order: provider calls and then the
    error, the error handler and the abort; or the exchange, the
    verification, the five commit [Set]s and a [Save] that either fails
    (error, error handler, abort) or succeeds (redirect). *)
Inductive CallbackLog (code : string) : list Event -> Prop :=
| LogRejected calls msg :
    In calls [[]; [EvExchange code false]; [EvExchange code true]] \/
    (exists raw ok, calls = [EvExchange code true; EvVerify raw ok]) ->
    CallbackLog code (calls ++ [EvError msg; EvErrorHandler; EvAbort])
| LogSaveFailed raw cj e msg :
    CallbackLog code
      ([EvExchange code true; EvVerify raw true] ++ commitSets cj raw
         ++ [EvSave (Some e); EvError msg; EvErrorHandler; EvAbort])
| LogCommitted raw cj url :
    CallbackLog code
      ([EvExchange code true; EvVerify raw true] ++ commitSets cj raw
         ++ [EvSave None; EvRedirect StatusFound url]).

(** ** A small provider and store to run the handlers on *)

Module Sample.

Definition urlString (u : URL) : string :=
  (if String.eqb (Scheme u) "" then "" else Scheme u +:+ "://")
  +:+ Host u +:+ Path u
  +:+ (if String.eqb (RawQuery u) "" then "" else "?" +:+ RawQuery u).
Definition parse (s : string) : result URL := Ok (mkURL "" "" s "" "").
Definition encode (m : gmap string (list string)) : string :=
  "id_token_hint=" +:+ match m !! "id_token_hint" with Some (v :: _) => v | _ => "" end
  +:+ "&post_logout_redirect_uri="
  +:+ match m !! "post_logout_redirect_uri" with Some (v :: _) => v | _ => "" end.
Definition saveOk (s : gmap string Value) : error := None.
Definition saveFails (s : gmap string Value) : error := Some "store unreachable".
Definition next (c : GinContext) : GinContext := c.
Definition newProvider (issuer : string) : result unit := Ok tt.
Definition verifierOf (p : unit) (clientID : string) : unit := tt.
Definition endpointOf (p : unit) : Endpoint :=
  mkEndpoint "https://issuer/authorize" "https://issuer/token".
Definition metadata (p : unit) : result (gmap string Value) :=
  Ok (<["issuer" := VString "https://accounts.google.com"]> ∅).
Definition verify (v : unit) (rawIDToken : string) : result string :=
  if String.eqb rawIDToken "h.p.s" then Ok rawIDToken
  else Err "oidc: malformed jwt".
Definition exchange (c : Config) (code : string) : result Token :=
  if String.eqb code "C1"
  then Ok (mkToken "at" "rt" (<["id_token" := VString "h.p.s"]> ∅))
  else Err "oauth2: cannot fetch token".
Definition authCodeURL (c : Config) (state : string) : string :=
  AuthURL (cfgEndpoint c) +:+ "?client_id=" +:+ ClientID c +:+ "&state=" +:+ state.
Definition claimsOf (t : string) : result string := Ok "sub:alice".
Definition marshal (c : string) : result string := Ok ("{" +:+ c +:+ "}").
Definition src : Rand.Source := fun _ => 0.

Definition errorPage (c : GinContext) : GinContext :=
  ctxRedirect StatusFound "http://example2.domain/error" c.

Definition params : InitParams :=
  mkInitParams "xx-xxx-xxx" "xx-xxx-xxx" "client"
    (mkURL "https" "accounts.google.com" "/" "" "")
    (mkURL "http" "example.domain" "/" "" "")
    ["openid"; "profile"; "email"] errorPage "/oidc-callback"
    (Some (mkURL "https" "accounts.google.com" "/logout" "" ""))
    (mkURL "http" "example2.domain" "/" "" "").
Definition config : Config :=
  mkConfig "xx-xxx-xxx" "xx-xxx-xxx" (endpointOf tt)
    "http://example.domain/oidc-callback" ["openid"; "profile"; "email"].

Definition request (path : string) (q : list (string * list string)) : HttpRequest :=
  mkRequest (mkURL "" "" path "" "") (list_to_map q).
Definition world (r : HttpRequest) (s : list (string * Value)) : World :=
  mkWorld (mkCtx r (list_to_map s) [] false None) [] 0.

(** A first visit, a provider redirect back to the callback path, and a
    visit with a session that holds [tok] as its ID token. *)
Definition firstVisit : World := world (request "/protected" []) [].
Definition providerReturn (state code : string) (stored orig : Value) : World :=
  world (request "/oidc-callback" [("state", [state]); ("code", [code])])
        [("oidcAuthorized", VBool false); ("oidcState", stored);
         ("oidcOriginalRequestUrl", orig)].
Definition visitWith (auth tok : Value) : World :=
  world (request "/protected" [])
        [("oidcAuthorized", auth); ("oidcIDToken", tok)].

Definition mismatchedReturn : World :=
  providerReturn "S2" "C1" (VString "S1") (VString "/protected").
Definition goodReturn : World :=
  providerReturn "S1" "C1" (VString "S1") (VString "/protected").
Definition failedExchange : World :=
  providerReturn "S1" "bad" (VString "S1") (VString "/protected").
Definition illTypedState : World :=
  providerReturn "S1" "C1" (VInt 7) (VString "/protected").
Definition loggedIn : World := visitWith (VBool true) (VString "h.p.s").
Definition staleToken : World := visitWith (VBool true) (VString "old.jwt").
Definition noToken : World := visitWith (VBool true) VNil.
Definition illTypedFlag : World := visitWith (VInt 1) VNil.
Definition illTypedToken : World := visitWith (VBool true) (VInt 1).

Definition callback : M unit :=
  callbackHandler saveOk unit string string verify exchange claimsOf marshal
    params tt config.
Definition gate (save : gmap string Value -> error) (fuel : nat) : M unit :=
  protectMiddleware urlString save next unit string verify authCodeURL src
    fuel params tt config.
Definition logout (save : gmap string Value -> error) : M unit :=
  logoutHandler urlString encode save params.

(** A provider that names its end-session endpoint, and the next request
    of a visitor: a fresh context on the session of the previous one. *)
Definition metadataWithLogout (p : unit) : result (gmap string Value) :=
  Ok (<["end_session_endpoint" := VString "https://issuer/end"]> ∅).
Definition thenRequest (r : HttpRequest) (w : World) : World :=
  mkWorld (mkCtx r (session (ctx w)) [] false None) (trace w) (draws w).

(** A visitor who is logged in (the token was verified before) and comes
    back from the provider with the pending state and a code that does not
    exchange. *)
Definition authorizedPending : World :=
  mkWorld
    (mkCtx (request "/oidc-callback" [("state", ["S1"]); ("code", ["bad"])])
       (list_to_map [("oidcAuthorized", VBool true); ("oidcIDToken", VString "h.p.s");
                     ("oidcState", VString "S1");
                     ("oidcOriginalRequestUrl", VString "/protected")])
       [] false None)
    [EvVerify "h.p.s" true] 0.
Definition emptyStateReturn : World :=
  world (request "/oidc-callback" [("code", ["bad"])])
        [("oidcAuthorized", VBool false); ("oidcState", VString "")].
Definition withAppKey : World :=
  world (request "/protected" []) [("cart", VInt 3)].
Definition noProvider (issuer : string) : result unit :=
  Err "dial tcp: no route to host".

End Sample.

(** * Properties *)

(** ** The random token generator *)

Module RandFacts.
Import Rand.

Lemma len_letterBytes : len letterBytes = 52.
Proof. reflexivity. Qed.

Lemma letterIdxMask_val : letterIdxMask = 63.
Proof. reflexivity. Qed.

Lemma letterIdxMax_val : letterIdxMax = 10.
Proof. reflexivity. Qed.

Lemma idxOf_nonneg src st : 0 <= idxOf src st.
Proof. unfold idxOf. rewrite letterIdxMask_val. apply Z.land_nonneg. right. lia. Qed.

Lemma byteAt_letter idx : 0 <= idx < len letterBytes -> isLetter (byteAt letterBytes idx).
Proof.
  intros H. unfold isLetter, byteAt. apply nth_In.
  rewrite len_letterBytes in H.
  change (length (list_ascii_of_string letterBytes)) with 52%nat. lia.
Qed.

Lemma length_string_of_list_ascii l :
  String.length (string_of_list_ascii l) = length l.
Proof. induction l as [|c l IH]; simpl; auto. Qed.

(** [body] either accepts the examined index or is [skip]. *)
Lemma body_cases src st :
  (idxOf src st < len letterBytes /\
   body src st = mkLoop (<[Z.to_nat (i st) := byteAt letterBytes (idxOf src st)]> (b st))
                   (i st - 1) (cache (skip src st)) (remain (skip src st))
                   (pos (skip src st)))
  \/ (len letterBytes <= idxOf src st /\ body src st = skip src st).
Proof.
  unfold body, skip, idxOf.
  destruct (remain st =? 0); cbn [cache remain pos];
    match goal with |- context [?x <? ?y] => destruct (Z.ltb_spec x y) end;
    [left | right | left | right]; split; auto.
Qed.

Lemma iterate_S {A} k (f : A -> A) x : iterate (S k) f x = iterate k f (f x).
Proof. reflexivity. Qed.

Lemma iterate_add {A} (f : A -> A) a c x :
  iterate (a + c) f x = iterate c f (iterate a f x).
Proof. revert x. induction a as [|a IH]; intros x; simpl; auto. Qed.

Lemma skip_fed_next src st q j :
  fed src st q j -> (j < 10)%nat -> fed src (skip src st) q (S j).
Proof.
  intros (Hp & Hj & Hr & Hc) Hlt. unfold fed, skip.
  destruct (Z.eqb_spec (remain st) 0) as [E|E]; [lia|].
  cbn [pos remain cache]. repeat split; try lia; auto.
  rewrite Hc, Z.shiftr_shiftr by (unfold letterIdxBits; lia).
  f_equal. unfold letterIdxBits. lia.
Qed.

Lemma skip_refill src st :
  remain st = 0 -> fed src (skip src st) (pos st) 1.
Proof.
  intros Hr. unfold fed, skip. rewrite Hr. cbn. repeat split; try lia.
Qed.

Lemma idxOf_fed src st q j :
  fed src st q j -> (j < 10)%nat -> idxOf src st = chunk (src q) (Z.of_nat j).
Proof.
  intros (Hp & Hj & Hr & Hc) Hlt. unfold idxOf, chunk.
  destruct (Z.eqb_spec (remain st) 0) as [E|E]; [lia|]. now rewrite Hc.
Qed.

Lemma idxOf_refill src st :
  remain st = 0 -> idxOf src st = chunk (src (pos st)) 0.
Proof.
  intros Hr. unfold idxOf, chunk. rewrite Hr. cbn [Z.eqb].
  now rewrite Z.mul_0_r, Z.shiftr_0_r.
Qed.

(** Rejecting [m] more chunks of the same draw. *)
Lemma iterate_skip_fed src m : forall st q j,
  fed src st q j -> (j + m <= 10)%nat ->
  fed src (iterate m (skip src) st) q (j + m).
Proof.
  induction m as [|m IH]; intros st q j Hf Hle; simpl.
  - now rewrite Nat.add_0_r.
  - replace (j + S m)%nat with (S j + m)%nat by lia.
    apply IH; [apply skip_fed_next; auto; lia | lia].
Qed.

Lemma fed_end src st q : fed src st q 10 -> remain st = 0 /\ pos st = S q.
Proof. intros (Hp & _ & Hr & _). split; [lia | auto]. Qed.

(** From the boundary of a draw, the [j]-th iteration examines chunk [j]
    of the next draw. *)
Lemma idxOf_from_boundary src st j :
  remain st = 0 -> (j < 10)%nat ->
  idxOf src (iterate j (skip src) st) = chunk (src (pos st)) (Z.of_nat j).
Proof.
  intros Hr Hj. destruct j as [|j]; simpl.
  - now apply idxOf_refill.
  - apply (idxOf_fed src _ (pos st) (S j)); [|lia].
    apply (iterate_skip_fed src j _ (pos st) 1); [now apply skip_refill | lia].
Qed.

Lemma boundary_next src st :
  remain st = 0 ->
  remain (iterate 10 (skip src) st) = 0 /\ pos (iterate 10 (skip src) st) = S (pos st).
Proof.
  intros Hr.
  assert (H : fed src (iterate 9 (skip src) (skip src st)) (pos st) (1 + 9)).
  { apply iterate_skip_fed; [now apply skip_refill | apply Nat.le_refl]. }
  rewrite (iterate_S 9). exact (fed_end src _ _ H).
Qed.

Lemma idxOf_later_draw src d : forall st j,
  remain st = 0 -> (j < 10)%nat ->
  idxOf src (iterate (10 * d + j) (skip src) st) = chunk (src (pos st + d)%nat) (Z.of_nat j).
Proof.
  induction d as [|d IH]; intros st j Hr Hj.
  - rewrite Nat.mul_0_r, Nat.add_0_l, Nat.add_0_r. now apply idxOf_from_boundary.
  - replace (10 * S d + j)%nat with (10 + (10 * d + j))%nat by lia.
    rewrite iterate_add.
    destruct (boundary_next src st Hr) as [Hr' Hp'].
    rewrite IH by auto. rewrite Hp'. f_equal. f_equal. lia.
Qed.

(** A productive source lets every reading state reach an accepted index. *)
Lemma eventually_accepted src st q j :
  productive src -> fed src st q j ->
  exists k, idxOf src (iterate k (skip src) st) < len letterBytes.
Proof.
  intros Hprod Hf.
  destruct (Hprod (S q)) as (q' & j' & Hq & Hj & Hacc).
  rewrite letterIdxMax_val in Hj.
  assert (Hf' : fed src (iterate (10 - j) (skip src) st) q 10).
  { destruct Hf as (Hp & Hle & Hr & Hc).
    replace 10%nat with (j + (10 - j))%nat at 2 by lia.
    apply iterate_skip_fed; [repeat split; auto | lia]. }
  apply (fed_end src) in Hf' as [Hr' Hp'].
  exists ((10 - j) + (10 * (q' - S q) + Z.to_nat j'))%nat.
  rewrite iterate_add, idxOf_later_draw by (auto; lia).
  rewrite Hp'. replace (S q + (q' - S q))%nat with q' by lia.
  rewrite Z2Nat.id by lia. exact Hacc.
Qed.

Lemma skip_keeps_fed src st :
  (exists q j, fed src st q j) -> exists q j, fed src (skip src st) q j.
Proof.
  intros (q & j & Hf). destruct (Nat.eq_dec j 10%nat) as [->|Hne].
  - destruct (fed_end src st q Hf) as [Hr _].
    exists (pos st), 1%nat. now apply skip_refill.
  - exists q, (S j). apply skip_fed_next; auto. destruct Hf as (_ & Hj & _). lia.
Qed.

Lemma skip_pos src st : (pos st <= pos (skip src st))%nat.
Proof. unfold skip. destruct (remain st =? 0); cbn; lia. Qed.

Lemma loop_mono src f : forall st r F,
  loop f src st = Some r -> loop (f + F) src st = Some r.
Proof.
  induction f as [|f IH]; intros st r F; simpl.
  - destruct (i st >=? 0) eqn:E; [discriminate|].
    intros H. destruct F; simpl; now rewrite E.
  - destruct (i st >=? 0); auto.
Qed.

(** Once some upcoming index is accepted, the loop writes one more letter. *)
Lemma loop_step_accept src k : forall st,
  0 <= i st ->
  idxOf src (iterate k (skip src) st) < len letterBytes ->
  (exists q j, fed src st q j) ->
  exists f st' c,
    (forall F, loop (f + F) src st = loop F src st') /\
    i st' = i st - 1 /\
    b st' = <[Z.to_nat (i st) := c]> (b st) /\
    isLetter c /\
    (exists q j, fed src st' q j) /\
    (pos st <= pos st')%nat.
Proof.
  induction k as [|k IH]; intros st Hi Hacc Hfed;
    destruct (body_cases src st) as [[Hlt Hb]|[Hge Hb]].
  1,3: exists 1%nat, (body src st), (byteAt letterBytes (idxOf src st));
       repeat split.
  1,7: intros F; simpl; destruct (Z.geb_spec (i st) 0); [reflexivity | lia].
  1,6: rewrite Hb; reflexivity.
  1,5: rewrite Hb; reflexivity.
  1,4: apply byteAt_letter; split; [apply idxOf_nonneg | assumption].
  1,3: destruct (skip_keeps_fed src st Hfed) as (q & j & Hf);
       exists q, j; rewrite Hb; exact Hf.
  1,2: rewrite Hb; cbn [pos]; apply skip_pos.
  - simpl in Hacc. lia.
  - rewrite iterate_S in Hacc.
    destruct (IH (skip src st)) as (f & st' & c & Hloop & Hi' & Hb' & Hc & Hf' & Hp); auto.
    { unfold skip. destruct (remain st =? 0); exact Hi. }
    { now apply skip_keeps_fed. }
    exists (S f), st', c. repeat split; auto.
    + intros F. simpl. destruct (Z.geb_spec (i st) 0); [|lia].
      rewrite Hb. apply Hloop.
    + rewrite Hi'. unfold skip. destruct (remain st =? 0); reflexivity.
    + rewrite Hb'. unfold skip. destruct (remain st =? 0); reflexivity.
    + pose proof (skip_pos src st). lia.
Qed.

(** With [i = n - 1], the loop ends having written letters at the first
    [n] positions of [b]. *)
Lemma loop_fill src (Hprod : productive src) n : forall st,
  i st = Z.of_nat n - 1 ->
  (n <= length (b st))%nat ->
  (exists q j, fed src st q j) ->
  exists f st',
    loop f src st = Some st' /\
    length (b st') = length (b st) /\
    (forall m, (m < n)%nat -> exists c, b st' !! m = Some c /\ isLetter c) /\
    (forall m, (n <= m)%nat -> b st' !! m = b st !! m) /\
    (pos st <= pos st')%nat.
Proof.
  induction n as [|n IH]; intros st Hi Hlen Hfed.
  - exists 0%nat, st. repeat split; auto; try lia.
    simpl. destruct (Z.geb_spec (i st) 0); [lia | reflexivity].
  - destruct Hfed as (q & j & Hf).
    destruct (eventually_accepted src st q j Hprod Hf) as [k Hk].
    destruct (loop_step_accept src k st) as (f1 & st1 & c & Hloop & Hi1 & Hb1 & Hc & Hf1 & Hp1);
      [lia | exact Hk | eauto |].
    assert (Hn : Z.to_nat (i st) = n) by lia. rewrite Hn in Hb1.
    destruct (IH st1) as (f2 & st' & Hrun & Hl & Hlow & Hhigh & Hp2).
    { lia. }
    { rewrite Hb1, length_insert. lia. }
    { exact Hf1. }
    exists (f1 + f2)%nat, st'. repeat split.
    + rewrite Hloop. exact Hrun.
    + rewrite Hl, Hb1. apply length_insert.
    + intros m Hm. destruct (Nat.eq_dec m n) as [->|Hne].
      * exists c. split; auto. rewrite Hhigh by lia. rewrite Hb1.
        apply list_lookup_insert_eq. lia.
      * apply Hlow. lia.
    + intros m Hm. rewrite Hhigh by lia. rewrite Hb1.
      apply list_lookup_insert_ne. lia.
    + lia.
Qed.

Lemma body_length src st : length (b (body src st)) = length (b st).
Proof.
  destruct (body_cases src st) as [[_ ->]|[_ ->]]; cbn [b].
  - apply length_insert.
  - unfold skip. destruct (remain st =? 0); reflexivity.
Qed.

Lemma loop_length src f : forall st st',
  loop f src st = Some st' -> length (b st') = length (b st).
Proof.
  induction f as [|f IH]; intros st st'; simpl; destruct (i st >=? 0);
    try discriminate; try (intros [= <-]; reflexivity).
  intros H. rewrite (IH _ _ H). apply body_length.
Qed.

(** Whatever the source and the fuel, a call that returns gives a string of
    the requested length, and a call with a length that is not negative
    neither panics nor ends the process. *)
Lemma RandomString_ret_length fuel src n p s p' :
  RandomString fuel src n p = Ret (s, p') -> String.length s = Z.to_nat n.
Proof.
  unfold RandomString. destruct (n <? 0); [discriminate|].
  destruct (loop _ _ _) as [st|] eqn:E; [|discriminate].
  intros [= <- <-]. rewrite length_string_of_list_ascii, (loop_length _ _ _ _ E).
  cbn [b]. apply length_replicate.
Qed.

Lemma RandomString_outcome fuel src n p :
  0 <= n ->
  RandomString fuel src n p = OutOfFuel \/
  exists s p', RandomString fuel src n p = Ret (s, p').
Proof.
  intros Hn. unfold RandomString. destruct (Z.ltb_spec n 0); [lia|].
  destruct (loop _ _ _); eauto.
Qed.

(** [RandomString] returns, for a productive source and a length that is
    not negative, a string of that many letters. *)
Lemma RandomString_returns (src : Source) (n : Z) (p : nat) :
  productive src -> 0 <= n ->
  exists fuel s p',
    RandomString fuel src n p = Ret (s, p') /\
    String.length s = Z.to_nat n /\
    Forall isLetter (list_ascii_of_string s) /\
    (p < p')%nat /\
    forall fuel', (fuel <= fuel')%nat -> RandomString fuel' src n p = Ret (s, p').
Proof.
  intros Hprod Hn.
  set (st0 := mkLoop (replicate (Z.to_nat n) Ascii.zero) (n - 1) (src p) letterIdxMax (S p)).
  destruct (loop_fill src Hprod (Z.to_nat n) st0) as (f & st' & Hrun & Hl & Hlow & _ & Hp).
  { cbn [st0 i]. lia. }
  { cbn [st0 b]. rewrite length_replicate. lia. }
  { exists p, 0%nat. unfold fed, st0. cbn [pos remain cache].
    rewrite letterIdxMax_val. repeat split; lia. }
  cbn [st0 b pos] in Hl, Hp. rewrite length_replicate in Hl.
  assert (Hres : forall fuel', (f <= fuel')%nat ->
            RandomString fuel' src n p = Ret (string_of_list_ascii (b st'), pos st')).
  { intros fuel' Hle. unfold RandomString.
    destruct (Z.ltb_spec n 0); [lia|]. fold st0.
    replace fuel' with (f + (fuel' - f))%nat by lia.
    now rewrite (loop_mono src f st0 st'). }
  exists f, (string_of_list_ascii (b st')), (pos st'). repeat split.
  - apply Hres. lia.
  - now rewrite length_string_of_list_ascii.
  - rewrite list_ascii_of_string_of_list_ascii. apply Forall_lookup.
    intros m c Hm. destruct (Hlow m) as (c' & Hc' & Hlet).
    + apply lookup_lt_Some in Hm. lia.
    + congruence.
  - lia.
  - exact Hres.
Qed.

Lemma RandomString_mono fuel fuel' src n p r :
  RandomString fuel src n p = Ret r -> (fuel <= fuel')%nat ->
  RandomString fuel' src n p = Ret r.
Proof.
  unfold RandomString. destruct (n <? 0); [discriminate|].
  destruct (loop fuel _ _) as [st|] eqn:E; [|discriminate].
  intros Hr Hle. replace fuel' with (fuel + (fuel' - fuel))%nat by lia.
  now rewrite (loop_mono _ _ _ _ _ E).
Qed.

(** C9: for every N >= 1 (and a source that does not reject chunks for
    ever), RandomString(N) returns a string of exactly N characters, each
    one from the 52-letter alphabet [letterBytes], after at least one
    fresh draw; whatever the fuel, a call that returns gives that string. *)
Theorem RandomString_length_alphabet (src : Source) (n : Z) (p : nat) :
  productive src -> 1 <= n ->
  exists fuel s p',
    RandomString fuel src n p = Ret (s, p') /\
    String.length s = Z.to_nat n /\
    Forall isLetter (list_ascii_of_string s) /\
    (p < p')%nat /\
    forall fuel' r, RandomString fuel' src n p = Ret r -> r = (s, p').
Proof.
  intros Hprod Hn.
  destruct (RandomString_returns src n p Hprod)
    as (fuel & s & p' & Hrun & Hlen & Hletters & Hfresh & Hmore); [lia|].
  exists fuel, s, p'. repeat split; auto.
  intros fuel' r Hr.
  pose proof (Hmore (Nat.max fuel fuel') (Nat.le_max_l _ _)) as H1.
  pose proof (RandomString_mono _ (Nat.max fuel fuel') _ _ _ _ Hr (Nat.le_max_r _ _)) as H2.
  congruence.
Qed.

End RandFacts.

(** ** The handlers *)

Section HandlerFacts.

Context (URLString : URL -> string)
        (valuesEncode : gmap string (list string) -> string)
        (storeSave : gmap string Value -> error)
        (nextHandlers : GinContext -> GinContext)
        (IDTokenVerifier IDToken ClaimsMap : Type)
        (Verify : IDTokenVerifier -> string -> result IDToken)
        (Exchange : Config -> string -> result Token)
        (AuthCodeURL : Config -> string -> string)
        (idTokenClaims : IDToken -> result ClaimsMap)
        (jsonMarshal : ClaimsMap -> result string)
        (src : Rand.Source).

Local Abbreviation callback :=
  (callbackHandler storeSave IDTokenVerifier IDToken ClaimsMap
     Verify Exchange idTokenClaims jsonMarshal).
Local Abbreviation gate :=
  (protectMiddleware URLString storeSave nextHandlers IDTokenVerifier IDToken
     Verify AuthCodeURL src).
Local Abbreviation logout := (logoutHandler URLString valuesEncode storeSave).

Lemma sessGet_set_eq k v s : sessGet (sessSet k v s) k = v.
Proof. unfold sessGet, sessSet. now rewrite lookup_insert_eq. Qed.

Lemma sessGet_set_ne k k' v s : k <> k' -> sessGet (sessSet k v s) k' = sessGet s k'.
Proof. intros H. unfold sessGet, sessSet. now rewrite lookup_insert_ne. Qed.

(** Worlds are compared field by field, with the log re-associated. *)
Lemma world_eq w1 w2 :
  ctx w1 = ctx w2 -> trace w1 = trace w2 -> draws w1 = draws w2 -> w1 = w2.
Proof. destruct w1, w2; cbn; congruence. Qed.

Lemma ctx_eq c1 c2 :
  Request c1 = Request c2 -> session c1 = session c2 -> Errors c1 = Errors c2 ->
  aborted c1 = aborted c2 -> response c1 = response c2 -> c1 = c2.
Proof. destruct c1, c2; cbn; congruence. Qed.

Lemma handleError_nil i msg w : handleError i None msg w = (Ret false, w).
Proof. reflexivity. Qed.

Lemma handleError_err i e msg w :
  handleError i (Some e) msg w = (Ret true, failed i (msg +:+ " [" +:+ e +:+ "]") w).
Proof.
  unfold handleError, bind, ginError, callErrorHandler, ginAbort, ret.
  cbv beta iota. f_equal. apply world_eq; [reflexivity | | reflexivity].
  cbn [trace emit onCtx failed]. now rewrite <- !app_assoc.
Qed.

Lemma handleOk_true i msg w : handleOk i true msg w = (Ret false, w).
Proof. reflexivity. Qed.

Lemma handleOk_false i msg w :
  handleOk i false msg w = (Ret true, failed i (msg +:+ " [not ok]") w).
Proof. unfold handleOk. apply handleError_err. Qed.

Ltac prims :=
  unfold sessionGet, sessionSet, ginQuery, requestURL, sessionSave, ginNext,
    configExchange, verifierVerify, ginRedirect, ret, panic, logFatal.

Ltac redw :=
  cbv beta iota;
  cbn [ctx trace draws emit onCtx session withSession fst snd errOf isOk
       stringOk isNil assertBool assertString ret panic logFatal orb negb];
  cbv beta iota.

Ltac fields :=
  cbn [ctx trace draws emit onCtx failed emits ctxError ctxAbort ctxRedirect
       withSession Request session Errors aborted response].

Ltac same_world :=
  apply world_eq;
  [ apply ctx_eq; fields; reflexivity
  | fields; rewrite <- ?app_assoc, ?app_nil_r; reflexivity
  | fields; reflexivity ].

(** C1: when the stored state is absent, is not a string, or differs from
    the [state] query parameter, the callback handler returns after pushing
    one error, calling the configured error handler once and aborting; it
    makes no [Set] call, so the error handler receives the session as it
    was, and the session stays as it was if that handler leaves it alone. *)
Theorem callback_bad_state_aborts i verifier config w :
  sessGet (session (ctx w)) "oidcState" <> VString (Query (ctx w) "state") ->
  exists msg evs,
    callback i verifier config w = (Ret tt, failed i msg w) /\
    trace (failed i msg w) = (trace w ++ evs)%list /\
    count isSet evs = 0%nat /\
    count isErrorHandlerCall evs = 1%nat /\
    aborted (ctx (failed i msg w)) = true /\
    session (ctxError msg (ctx w)) = session (ctx w) /\
    (session (ErrorHandler i (ctxError msg (ctx w))) = session (ctx w) ->
     session (ctx (failed i msg w)) = session (ctx w)).
Proof.
  intros Hbad.
  assert (Hfacts : forall msg,
    trace (failed i msg w) = (trace w ++ [EvError msg; EvErrorHandler; EvAbort])%list /\
    count isSet [EvError msg; EvErrorHandler; EvAbort] = 0%nat /\
    count isErrorHandlerCall [EvError msg; EvErrorHandler; EvAbort] = 1%nat /\
    aborted (ctx (failed i msg w)) = true /\
    session (ctxError msg (ctx w)) = session (ctx w) /\
    (session (ErrorHandler i (ctxError msg (ctx w))) = session (ctx w) ->
     session (ctx (failed i msg w)) = session (ctx w))).
  { intros msg. repeat split. intros H. exact H. }
  unfold callbackHandler, bind. prims. redw.
  destruct (sessGet (session (ctx w)) "oidcState") as [| |s|] eqn:E; redw.
  1,2,4: eexists; eexists; split; [rewrite handleOk_false; reflexivity | apply Hfacts].
  rewrite handleOk_true. redw.
  destruct (String.eqb_spec (Query (ctx w) "state") s) as [Heq|Hne]; [congruence|].
  eexists; eexists; split; [rewrite handleOk_false; reflexivity | apply Hfacts].
Qed.

(** C3: when every step of the callback succeeds, the session ends up
    with [oidcAuthorized = true], [oidcState] and [oidcOriginalRequestUrl]
    cleared, [oidcClaims] and [oidcIDToken] set to the non-empty claims and
    ID token, every other key (so any access or refresh token field) as it
    was, and the response is a 302 to the stored original request URL.
    Non-emptiness rests on the verifier rejecting the empty string and on
    [json.Marshal] never returning an empty text. *)
Theorem callback_success_commits i verifier config w tok raw idt cl cj url :
  (forall t, Verify verifier "" <> Ok t) ->
  (forall c, jsonMarshal c <> Ok "") ->
  sessGet (session (ctx w)) "oidcState" = VString (Query (ctx w) "state") ->
  Exchange config (Query (ctx w) "code") = Ok tok ->
  Extra tok "id_token" = VString raw ->
  Verify verifier raw = Ok idt ->
  idTokenClaims idt = Ok cl ->
  jsonMarshal cl = Ok cj ->
  sessGet (session (ctx w)) "oidcOriginalRequestUrl" = VString url ->
  storeSave (committed cj raw (session (ctx w))) = None ->
  let s' := committed cj raw (session (ctx w)) in
  callback i verifier config w =
    (Ret tt,
     mkWorld (ctxRedirect StatusFound url (withSession (ctx w) s'))
       (trace w ++ [EvExchange (Query (ctx w) "code") true; EvVerify raw true]
                ++ commitSets cj raw ++ [EvSave None; EvRedirect StatusFound url])
       (draws w)) /\
  sessGet s' "oidcAuthorized" = VBool true /\
  sessGet s' "oidcState" = VNil /\
  sessGet s' "oidcOriginalRequestUrl" = VNil /\
  sessGet s' "oidcClaims" = VString cj /\ cj <> "" /\
  sessGet s' "oidcIDToken" = VString raw /\ raw <> "" /\
  (forall k, ~ In k ["oidcAuthorized"; "oidcState"; "oidcOriginalRequestUrl";
                     "oidcClaims"; "oidcIDToken"] ->
             sessGet s' k = sessGet (session (ctx w)) k) /\
  sessGet s' "oidcAccessToken" = sessGet (session (ctx w)) "oidcAccessToken" /\
  sessGet s' "oidcRefreshToken" = sessGet (session (ctx w)) "oidcRefreshToken".
Proof.
  intros Hempty Hjson Hst Hex Hid Hver Hcl Hjs Hurl Hsave s'.
  split; [|unfold s', committed; repeat split].
  - unfold callbackHandler, bind. prims. redw.
    rewrite Hst. redw. rewrite handleOk_true. redw.
    rewrite String.eqb_refl, handleOk_true. redw.
    rewrite Hex. redw. rewrite handleError_nil. redw.
    rewrite Hid. redw. rewrite handleOk_true. redw.
    rewrite Hver. redw. rewrite handleError_nil. redw.
    rewrite Hcl. redw. rewrite handleError_nil. redw.
    rewrite Hjs. redw. rewrite handleError_nil. redw.
    rewrite Hurl. redw. rewrite handleOk_true. redw.
    fold (committed cj raw (session (ctx w))). rewrite Hsave, handleError_nil.
    redw. f_equal. unfold s', commitSets, committed. same_world.
  - now rewrite !sessGet_set_ne, sessGet_set_eq by discriminate.
  - now rewrite !sessGet_set_ne, sessGet_set_eq by discriminate.
  - now rewrite !sessGet_set_ne, sessGet_set_eq by discriminate.
  - now rewrite !sessGet_set_ne, sessGet_set_eq by discriminate.
  - intros ->. exact (Hjson _ Hjs).
  - now rewrite sessGet_set_eq.
  - intros ->. exact (Hempty _ Hver).
  - intros k Hk. cbn in Hk.
    rewrite !sessGet_set_ne; auto; intros <-; apply Hk; auto 10.
  - now rewrite !sessGet_set_ne by discriminate.
  - now rewrite !sessGet_set_ne by discriminate.
Qed.


(** C5: when [oidcAuthorized] is true, or the path is the callback path
    (with [oidcAuthorized] absent or a bool), and [oidcIDToken] is absent
    or a string: without a non-empty ID token the gate calls [c.Next]
    directly; with one it verifies the token first, calls [c.Next] when
    verification succeeds, and otherwise pushes the error, calls the error
    handler, aborts, and never calls [c.Next]. *)
Theorem gate_passes_or_aborts fuel i verifier config w :
  sessGet (session (ctx w)) "oidcAuthorized" = VBool true \/
  (Path (reqURL (Request (ctx w))) = CallbackPath i /\
   boolOrNil (sessGet (session (ctx w)) "oidcAuthorized") = true) ->
  stringOrNil (sessGet (session (ctx w)) "oidcIDToken") = true ->
  (sessGet (session (ctx w)) "oidcIDToken" = VNil \/
   sessGet (session (ctx w)) "oidcIDToken" = VString "" ->
   gate fuel i verifier config w =
     (Ret tt, mkWorld (nextHandlers (ctx w)) (trace w ++ [EvNext]) (draws w))) /\
  (forall tok t,
     sessGet (session (ctx w)) "oidcIDToken" = VString tok -> tok <> "" ->
     Verify verifier tok = Ok t ->
     gate fuel i verifier config w =
       (Ret tt, mkWorld (nextHandlers (ctx w))
                  (trace w ++ [EvVerify tok true; EvNext]) (draws w))) /\
  (forall tok e,
     sessGet (session (ctx w)) "oidcIDToken" = VString tok -> tok <> "" ->
     Verify verifier tok = Err e ->
     let msg := "failed to verify id token" +:+ " [" +:+ e +:+ "]" in
     let evs := [EvVerify tok false; EvError msg; EvErrorHandler; EvAbort] in
     gate fuel i verifier config w =
       (Ret tt, mkWorld (ctxAbort (ErrorHandler i (ctxError msg (ctx w))))
                  (trace w ++ evs) (draws w)) /\
     count isNext evs = 0%nat /\ count isErrorHandlerCall evs = 1%nat).
Proof.
  intros Hpass Htyped.
  assert (Hcond : exists a,
    (if isNil (sessGet (session (ctx w)) "oidcAuthorized")
     then ret false else assertBool (sessGet (session (ctx w)) "oidcAuthorized")) w
      = (Ret a, w) /\
    (a || String.eqb (Path (reqURL (Request (ctx w)))) (CallbackPath i))%bool = true).
  { destruct Hpass as [-> | [Hp Hb]].
    - exists true. split; reflexivity.
    - rewrite Hp, String.eqb_refl.
      destruct (sessGet (session (ctx w)) "oidcAuthorized") as [|a| |];
        try discriminate Hb.
      + exists false. split; reflexivity.
      + exists a. split; [reflexivity | apply orb_true_r]. }
  destruct Hcond as (a & Ha & Hor).
  assert (Hhead : forall k : bool -> M unit,
    bind (if isNil (sessGet (session (ctx w)) "oidcAuthorized")
          then ret false else assertBool (sessGet (session (ctx w)) "oidcAuthorized")) k w
    = k a w).
  { intros k. unfold bind. now rewrite Ha. }
  split; [|split].
  - intros Hnone. unfold protectMiddleware. unfold bind at 1. prims. cbv beta iota.
    rewrite Hhead. unfold bind. redw. rewrite Hor.
    destruct Hnone as [-> | ->]; redw; f_equal; same_world.
  - intros tok t Htok Hne Hver. unfold protectMiddleware. unfold bind at 1.
    prims. cbv beta iota. rewrite Hhead. unfold bind. redw. rewrite Hor, Htok. redw.
    apply String.eqb_neq in Hne. rewrite Hne. redw.
    rewrite Hver. redw. rewrite handleError_nil. redw. f_equal. same_world.
  - intros tok e Htok Hne Hver msg evs. repeat split.
    unfold protectMiddleware. unfold bind at 1.
    prims. cbv beta iota. rewrite Hhead. unfold bind. redw. rewrite Hor, Htok. redw.
    apply String.eqb_neq in Hne. rewrite Hne. redw.
    rewrite Hver. redw. rewrite handleError_err. redw. f_equal. same_world.
Qed.

Lemma sessGet_cleared s :
  sessGet (cleared s) "oidcAuthorized" = VBool false /\
  sessGet (cleared s) "oidcClaims" = VNil /\
  sessGet (cleared s) "oidcState" = VNil /\
  sessGet (cleared s) "oidcOriginalRequestUrl" = VNil /\
  sessGet (cleared s) "oidcIDToken" = VNil.
Proof.
  unfold cleared. repeat split;
    now rewrite ?sessGet_set_ne, sessGet_set_eq by discriminate.
Qed.

(** Logout without an ID token to hint at, whatever [Save] returns. *)
Lemma logout_local i w :
  sessGet (session (ctx w)) "oidcIDToken" = VNil \/
  sessGet (session (ctx w)) "oidcIDToken" = VString "" ->
  let s' := cleared (session (ctx w)) in
  let target := URLString (PostLogoutUrl i) in
  logout i w =
    (Ret tt, mkWorld (ctxRedirect StatusFound target (withSession (ctx w) s'))
               (trace w ++ clearSets
                  ++ [EvSave (storeSave s'); EvRedirect StatusFound target])
               (draws w)).
Proof.
  intros Htok s' target. unfold logoutHandler, bind. prims. redw.
  destruct Htok as [-> | ->]; redw; cbn [String.eqb]; cbv beta iota;
    f_equal; unfold s', cleared, clearSets; same_world.
Qed.

(** Logout with a non-empty ID token. *)
Lemma logout_provider i w tok u :
  sessGet (session (ctx w)) "oidcIDToken" = VString tok -> tok <> "" ->
  LogoutUrl i = Some u ->
  let s' := cleared (session (ctx w)) in
  let q := valuesEncode
             (<["post_logout_redirect_uri" := [URLString (PostLogoutUrl i)]]>
                (<["id_token_hint" := [tok]]> ∅)) in
  let target := URLString (setRawQuery u q) in
  logout i w =
    (Ret tt, mkWorld (ctxRedirect StatusFound target (withSession (ctx w) s'))
               (trace w ++ clearSets
                  ++ [EvSave (storeSave s'); EvRedirect StatusFound target])
               (draws w)).
Proof.
  intros Htok Hne Hu s' q target. unfold logoutHandler, bind. prims. redw.
  rewrite Htok. redw. apply String.eqb_neq in Hne. rewrite Hne, Hu. redw.
  f_equal. unfold target, q, s', cleared, clearSets. same_world.
Qed.

(** C8: logout branches on the stored ID token alone.  Absent or empty:
    the five fields are cleared, the session saved, and the redirect goes
    to the post-logout URL, with no provider call.  A non-empty string:
    same clearing and save, then the redirect goes to the end-session
    endpoint whose query carries [post_logout_redirect_uri] (the
    post-logout URL) and [id_token_hint] (the token read before the
    clearing). *)
Theorem logout_branches_on_id_token i w :
  let s' := cleared (session (ctx w)) in
  let home := URLString (PostLogoutUrl i) in
  (sessGet (session (ctx w)) "oidcIDToken" = VNil \/
   sessGet (session (ctx w)) "oidcIDToken" = VString "" ->
   let evs := (clearSets ++ [EvSave (storeSave s'); EvRedirect StatusFound home])%list in
   logout i w =
     (Ret tt, mkWorld (ctxRedirect StatusFound home (withSession (ctx w) s'))
                (trace w ++ evs) (draws w)) /\
   count isProviderCall evs = 0%nat) /\
  (forall tok u,
     sessGet (session (ctx w)) "oidcIDToken" = VString tok -> tok <> "" ->
     LogoutUrl i = Some u ->
     let q := valuesEncode
                (<["post_logout_redirect_uri" := [home]]>
                   (<["id_token_hint" := [tok]]> ∅)) in
     let target := URLString (setRawQuery u q) in
     logout i w =
       (Ret tt, mkWorld (ctxRedirect StatusFound target (withSession (ctx w) s'))
                  (trace w ++ clearSets
                     ++ [EvSave (storeSave s'); EvRedirect StatusFound target])
                  (draws w))) /\
  sessGet s' "oidcAuthorized" = VBool false /\
  sessGet s' "oidcClaims" = VNil /\
  sessGet s' "oidcState" = VNil /\
  sessGet s' "oidcOriginalRequestUrl" = VNil /\
  sessGet s' "oidcIDToken" = VNil.
Proof.
  intros s' home. split; [|split].
  - intros Htok evs. split; [now apply logout_local | reflexivity].
  - intros tok u Htok Hne Hu. now apply logout_provider.
  - apply sessGet_cleared.
Qed.

(** C6, the code at a failing save.  In the gate the process ends in
    [log.Fatal] without any error being pushed or the error handler being
    called; in logout the error returned by [Save] is dropped and the
    redirect is issued as if the save had succeeded. *)
Theorem save_failure_in_gate_and_logout fuel i verifier config w state p' e :
  sessGet (session (ctx w)) "oidcAuthorized" = VNil ->
  sessGet (session (ctx w)) "oidcIDToken" = VNil ->
  Path (reqURL (Request (ctx w))) <> CallbackPath i ->
  Rand.RandomString fuel src 16 (draws w) = Ret (state, p') ->
  (forall s, storeSave s = Some e) ->
  let url := URLString (reqURL (Request (ctx w))) in
  let home := URLString (PostLogoutUrl i) in
  gate fuel i verifier config w =
    (Fatal ("failed save sessions. error: " +:+ e),
     mkWorld (withSession (ctx w) (pendingLogin state url (session (ctx w))))
       (trace w ++ pendingLoginSets state url ++ [EvSave (Some e)]) p') /\
  logout i w =
    (Ret tt,
     mkWorld (ctxRedirect StatusFound home
                (withSession (ctx w) (cleared (session (ctx w)))))
       (trace w ++ clearSets ++ [EvSave (Some e); EvRedirect StatusFound home])
       (draws w)) /\
  count isErrorHandlerCall (pendingLoginSets state url ++ [EvSave (Some e)])%list = 0%nat /\
  count isErrorHandlerCall
    (clearSets ++ [EvSave (Some e); EvRedirect StatusFound home])%list = 0%nat.
Proof.
  intros Hauth Htok Hpath Hrand Hsave url home. repeat split.
  - unfold protectMiddleware, bind. prims. redw. rewrite Hauth. redw.
    apply String.eqb_neq in Hpath. rewrite Hpath.
    unfold randomString. rewrite Hrand. redw. rewrite Hsave. redw.
    f_equal. unfold pendingLogin, pendingLoginSets. same_world.
  - rewrite logout_local by auto. now rewrite Hsave.
Qed.

Local Abbreviation CallbackEnds := (CallbackEnd IDTokenVerifier IDToken Verify).

Lemma callback_rejected_at i verifier w w1 msg evs :
  w1 = emits evs w -> count isSet evs = 0%nat ->
  exists w', (Ret tt, failed i msg w1) = (Ret tt, w') /\ CallbackEnds i verifier w w'.
Proof. intros -> Hc. eexists. split; [reflexivity|]. now constructor. Qed.

(** The callback handler always returns, in one of the three ways of
    [CallbackEnd]. *)
Lemma callback_ends i verifier config w :
  exists w', callback i verifier config w = (Ret tt, w') /\
             CallbackEnds i verifier w w'.
Proof.
  unfold callbackHandler, bind. prims. redw.
  destruct (sessGet (session (ctx w)) "oidcState") as [| |st|]; redw.
  1,2,4: rewrite handleOk_false; redw;
         apply callback_rejected_at with (evs := []); [same_world | reflexivity].
  rewrite handleOk_true. redw.
  destruct (String.eqb (Query (ctx w) "state") st).
  2: { rewrite handleOk_false; redw.
       apply callback_rejected_at with (evs := []); [same_world | reflexivity]. }
  rewrite handleOk_true. redw.
  set (code := Query (ctx w) "code").
  destruct (Exchange config code) as [tok|e]; redw.
  2: { rewrite handleError_err; redw.
       apply callback_rejected_at with (evs := [EvExchange code false]);
         [same_world | reflexivity]. }
  rewrite handleError_nil. redw.
  destruct (Extra tok "id_token") as [| |raw|]; redw.
  1,2,4: rewrite handleOk_false; redw;
         apply callback_rejected_at with (evs := [EvExchange code true]);
         [same_world | reflexivity].
  rewrite handleOk_true. redw.
  destruct (Verify verifier raw) as [idt|e] eqn:Hver; redw.
  2: { rewrite handleError_err; redw.
       apply callback_rejected_at
         with (evs := [EvExchange code true; EvVerify raw false]);
         [same_world | reflexivity]. }
  rewrite handleError_nil. redw.
  set (evs := [EvExchange code true; EvVerify raw true]).
  destruct (idTokenClaims idt) as [cl|e]; redw.
  2: { rewrite handleError_err; redw.
       apply callback_rejected_at with (evs := evs); [same_world | reflexivity]. }
  rewrite handleError_nil. redw.
  destruct (jsonMarshal cl) as [cj|e]; redw.
  2: { rewrite handleError_err; redw.
       apply callback_rejected_at with (evs := evs); [same_world | reflexivity]. }
  rewrite handleError_nil. redw.
  destruct (sessGet (session (ctx w)) "oidcOriginalRequestUrl") as [| |url|]; redw.
  1,2,4: rewrite handleOk_false; redw;
         apply callback_rejected_at with (evs := evs); [same_world | reflexivity].
  rewrite handleOk_true. redw.
  fold (committed cj raw (session (ctx w))).
  destruct (storeSave (committed cj raw (session (ctx w)))) as [e|] eqn:Hsave.
  - rewrite handleError_err. redw. eexists. split; [reflexivity|].
    match goal with |- CallbackEnds _ _ _ (failed _ ?m ?W) =>
      replace W with
        (emits (evs ++ commitSets cj raw ++ [EvSave (Some e)])
           (onCtx (fun c => withSession c (committed cj raw (session c))) w))
    end.
    + apply CallbackSaveFailed with (idt := idt); [exact Hver | cbn; auto].
    + unfold committed, commitSets, evs. same_world.
  - rewrite handleError_nil. redw. eexists. split; [reflexivity|].
    match goal with |- CallbackEnds _ _ _ ?W =>
      replace W with
        (emits (evs ++ commitSets cj raw ++ [EvSave None; EvRedirect StatusFound url])
           (onCtx (fun c => ctxRedirect StatusFound url
                     (withSession c (committed cj raw (session c)))) w))
    end.
    + apply CallbackCommitted with (idt := idt); [exact Hver | cbn; auto].
    + unfold committed, commitSets, evs. same_world.
Qed.

Lemma not_wellTyped_auth s :
  boolOrNil (sessGet s "oidcAuthorized") = false -> ~ wellTyped s.
Proof. intros H [Ha _]. congruence. Qed.

Lemma not_wellTyped_token s :
  stringOrNil (sessGet s "oidcIDToken") = false -> ~ wellTyped s.
Proof. intros H [_ Ht]. congruence. Qed.

Lemma gate_passed_at i w w1 evs :
  w1 = emit EvNext (onCtx nextHandlers (emits evs w)) -> count isSet evs = 0%nat ->
  GateEnd nextHandlers i w (Ret tt, w1).
Proof. intros -> Hc. now constructor. Qed.

Lemma gate_rejected_at i w w1 msg evs :
  w1 = emits evs w -> count isSet evs = 0%nat ->
  GateEnd nextHandlers i w (Ret tt, failed i msg w1).
Proof. intros -> Hc. now constructor. Qed.

(** The gate ends in one of the ways of [GateEnd]. *)
Lemma gate_ends fuel i verifier config w :
  GateEnd nextHandlers i w (gate fuel i verifier config w).
Proof.
  unfold protectMiddleware. unfold bind at 1. prims. cbv beta iota.
  assert (Hpass : forall a : bool,
    GateEnd nextHandlers i w
      ((let* rawIDToken := sessionGet "oidcIDToken" in
        let* nonEmpty :=
          (if isNil rawIDToken then ret false
           else let* s := assertString rawIDToken in ret (negb (String.eqb s ""))) in
        let* stop :=
          (if nonEmpty : bool then
             let* tok := assertString rawIDToken in
             let* r := verifierVerify IDTokenVerifier IDToken Verify verifier tok in
             handleError i (errOf r) "failed to verify id token"
           else ret false) in
        if stop : bool then ret tt else ginNext nextHandlers) w)).
  { intros _. unfold bind. prims. redw.
    destruct (sessGet (session (ctx w)) "oidcIDToken") as [|x|tok|x] eqn:Htok; redw.
    - apply gate_passed_at with (evs := []); [same_world | reflexivity].
    - apply GatePanicked, not_wellTyped_token. now rewrite Htok.
    - destruct (String.eqb tok ""); redw.
      + apply gate_passed_at with (evs := []); [same_world | reflexivity].
      + destruct (Verify verifier tok) as [t|e]; redw.
        * rewrite handleError_nil. redw.
          apply gate_passed_at with (evs := [EvVerify tok true]);
            [same_world | reflexivity].
        * rewrite handleError_err. redw.
          apply gate_rejected_at with (evs := [EvVerify tok false]);
            [same_world | reflexivity].
    - apply GatePanicked, not_wellTyped_token. now rewrite Htok. }
  assert (Hstart :
    GateEnd nextHandlers i w
      ((let* state := randomString src fuel 16 in
        sessionSet "oidcAuthorized" (VBool false) >>
        sessionSet "oidcState" (VString state) >>
        sessionSet "oidcOriginalRequestUrl"
          (VString (URLString (reqURL (Request (ctx w))))) >>
        sessionSet "oidcIDToken" VNil >>
        let* err := sessionSave storeSave in
        match err with
        | Some e => logFatal ("failed save sessions. error: " +:+ e)
        | None => ginRedirect StatusFound (AuthCodeURL config state)
        end) w)).
  { unfold bind at 1. unfold randomString.
    destruct (RandFacts.RandomString_outcome fuel src 16 (draws w)) as [E|(state & p' & E)];
      [lia | rewrite E; constructor |].
    rewrite E. cbv beta iota.
    assert (Hne : state <> "").
    { intros ->. apply RandFacts.RandomString_ret_length in E. discriminate E. }
    unfold bind. prims. redw.
    match goal with |- context [storeSave ?s] => destruct (storeSave s) end; redw.
    - eapply GateStarted with (state := state); [discriminate | exact Hne | |];
        fields; [reflexivity | rewrite <- ?app_assoc; reflexivity].
    - eapply GateStarted with (state := state); [discriminate | exact Hne | |];
        fields; [reflexivity | rewrite <- ?app_assoc; reflexivity]. }
  unfold bind at 1.
  destruct (sessGet (session (ctx w)) "oidcAuthorized") as [|a|x|x] eqn:Hauth; redw.
  - unfold bind at 1. redw.
    destruct (String.eqb _ _); [apply (Hpass false) | apply Hstart].
  - unfold bind at 1. redw.
    destruct (a || String.eqb _ _)%bool; [apply (Hpass a) | apply Hstart].
  - apply GatePanicked, not_wellTyped_auth. now rewrite Hauth.
  - apply GatePanicked, not_wellTyped_auth. now rewrite Hauth.
Qed.

(** Logout ends in one of the ways of [LogoutEnd]. *)
Lemma logout_ends i w : LogoutEnd i w (logout i w).
Proof.
  destruct (sessGet (session (ctx w)) "oidcIDToken") as [|x|tok|x] eqn:Htok.
  - rewrite logout_local by auto.
    eapply LogoutCleared; [now left | reflexivity | reflexivity].
  - unfold logoutHandler, bind. prims. redw. rewrite Htok. redw.
    apply LogoutPanicked. now rewrite Htok.
  - destruct (String.eqb_spec tok "") as [->|Hne].
    + rewrite logout_local by auto.
      eapply LogoutCleared; [now left | reflexivity | reflexivity].
    + destruct (LogoutUrl i) as [u|] eqn:Hu.
      * rewrite (logout_provider i w tok u) by auto.
        eapply LogoutCleared; [now left | reflexivity | reflexivity].
      * unfold logoutHandler, bind. prims. redw. rewrite Htok. redw.
        apply String.eqb_neq in Hne. rewrite Hne, Hu. redw.
        eapply LogoutCleared; [right; eauto | |];
          fields; [reflexivity | rewrite <- ?app_assoc; reflexivity].
  - unfold logoutHandler, bind. prims. redw. rewrite Htok. redw.
    apply LogoutPanicked. now rewrite Htok.
Qed.

Lemma sessionInv_same_session w w' evs :
  session (ctx w') = session (ctx w) -> trace w' = (trace w ++ evs)%list ->
  sessionInv w -> sessionInv w'.
Proof.
  unfold sessionInv. intros Hs Ht Hinv. rewrite Hs, Ht. intros Ha.
  destruct (Hinv Ha) as (tok & Htok & Hne & Hin).
  exists tok. repeat split; auto. apply in_or_app. now left.
Qed.

Lemma sessionInv_unauthorized w b :
  sessGet (session (ctx w)) "oidcAuthorized" = VBool b -> b = false -> sessionInv w.
Proof. unfold sessionInv. intros -> -> [=]. Qed.

Lemma sessionInv_committed w cj raw s :
  session (ctx w) = committed cj raw s -> raw <> "" ->
  In (EvVerify raw true) (trace w) -> sessionInv w.
Proof.
  unfold sessionInv. intros -> Hne Hin _. exists raw. repeat split; auto.
  unfold committed. apply sessGet_set_eq.
Qed.

Lemma sessGet_committed cj raw s :
  sessGet (committed cj raw s) "oidcState" = VNil /\
  sessGet (committed cj raw s) "oidcAuthorized" = VBool true.
Proof.
  unfold committed.
  split; now rewrite !sessGet_set_ne, sessGet_set_eq by discriminate.
Qed.

Lemma sessGet_pendingLogin state url s :
  sessGet (pendingLogin state url s) "oidcState" = VString state /\
  sessGet (pendingLogin state url s) "oidcAuthorized" = VBool false.
Proof.
  unfold pendingLogin.
  split; now rewrite !sessGet_set_ne, sessGet_set_eq by discriminate.
Qed.

(** What the three handlers do to the session and to the log, for an error
    handler and protected handlers that leave the session alone. *)
Section SessionEffects.

Variables (i : InitParams) (verifier : IDTokenVerifier) (config : Config).
Hypothesis errorHandler_keeps : forall c, session (ErrorHandler i c) = session c.
Hypothesis next_keeps : forall c, session (nextHandlers c) = session c.
Hypothesis verify_rejects_empty : forall t, Verify verifier "" <> Ok t.

Ltac keeps :=
  fields; rewrite ?errorHandler_keeps, ?next_keeps; fields; try reflexivity.

Lemma gate_effect fuel w :
  let w' := snd (gate fuel i verifier config w) in
  (sessionInv w -> sessionInv w') /\
  (session (ctx w') = session (ctx w) \/
   exists state, state <> "" /\
     sessGet (session (ctx w')) "oidcState" = VString state /\
     sessGet (session (ctx w')) "oidcAuthorized" = VBool false).
Proof.
  intros w'. subst w'. destruct (gate_ends fuel i verifier config w); cbn [snd].
  - split; [exact (fun H => H) | now left].
  - split; [|left; keeps].
    apply sessionInv_same_session with (evs := (evs ++ [EvNext])%list);
      [keeps | fields; now rewrite <- app_assoc].
  - split; [|left; keeps].
    apply sessionInv_same_session
      with (evs := (evs ++ [EvError msg; EvErrorHandler; EvAbort])%list);
      [keeps | fields; now rewrite <- app_assoc].
  - split; [exact (fun H => H) | now left].
  - destruct (sessGet_pendingLogin state url (session (ctx w))) as [Hst Hau].
    match goal with Hs : session (ctx _) = pendingLogin _ _ _ |- _ =>
      rewrite <- Hs in Hst, Hau end.
    split; [|right; eauto].
    intros _. now apply sessionInv_unauthorized with (b := false).
Qed.

Lemma callback_effect w :
  let w' := snd (callback i verifier config w) in
  (sessionInv w -> sessionInv w') /\
  (session (ctx w') = session (ctx w) \/
   sessGet (session (ctx w')) "oidcState" = VNil /\
   sessGet (session (ctx w')) "oidcAuthorized" = VBool true).
Proof.
  intros w'. subst w'.
  destruct (callback_ends i verifier config w) as (w' & -> & Hend). cbn [snd].
  destruct Hend as [msg evs Hc | raw idt cj url evs Hver Hin | raw idt cj msg evs Hver Hin].
  - split; [|left; keeps].
    apply sessionInv_same_session
      with (evs := (evs ++ [EvError msg; EvErrorHandler; EvAbort])%list);
      [keeps | fields; now rewrite <- app_assoc].
  - split; [|right; fields; apply sessGet_committed].
    intros _. apply sessionInv_committed with (cj := cj) (raw := raw) (s := session (ctx w));
      fields; auto.
    + intros ->. exact (verify_rejects_empty _ Hver).
    + apply in_or_app. now right.
  - split; [|right; keeps; apply sessGet_committed].
    intros _. apply sessionInv_committed with (cj := cj) (raw := raw) (s := session (ctx w));
      fields.
    + keeps.
    + intros ->. exact (verify_rejects_empty _ Hver).
    + apply in_or_app. left. apply in_or_app. now right.
Qed.

Lemma logout_effect w :
  let w' := snd (logout i w) in
  (sessionInv w -> sessionInv w') /\
  (session (ctx w') = session (ctx w) \/
   sessGet (session (ctx w')) "oidcState" = VNil).
Proof.
  intros w'. subst w'. destruct (logout_ends i w) as [msg Hty | o w' evs Ho Hs Ht]; cbn [snd].
  - split; [exact (fun H => H) | now left].
  - destruct (sessGet_cleared (session (ctx w))) as (Hau & _ & Hst & _).
    rewrite <- Hs in Hau, Hst. split; [|now right].
    intros _. now apply sessionInv_unauthorized with (b := false).
Qed.

(** A callback whose state matched but whose exchange or verification
    failed leaves the session, and so the stored state, as it was. *)
Lemma callback_keeps_state_on_failure w st :
  sessGet (session (ctx w)) "oidcState" = VString st ->
  Query (ctx w) "state" = st ->
  (exists e, Exchange config (Query (ctx w) "code") = Err e) \/
  (exists tok raw e, Exchange config (Query (ctx w) "code") = Ok tok /\
                     Extra tok "id_token" = VString raw /\
                     Verify verifier raw = Err e) ->
  session (ctx (snd (callback i verifier config w))) = session (ctx w) /\
  sessGet (session (ctx (snd (callback i verifier config w)))) "oidcState" = VString st.
Proof.
  intros Hst Hq Hfail.
  assert (Hs : session (ctx (snd (callback i verifier config w))) = session (ctx w)).
  { unfold callbackHandler, bind. prims. redw. rewrite Hst. redw.
    rewrite handleOk_true. redw. rewrite Hq, String.eqb_refl, handleOk_true. redw.
    destruct Hfail as [(e & He) | (tok & raw & e & Hex & Hid & Hver)].
    - rewrite He. redw. rewrite handleError_err. redw. cbn [snd]. keeps.
    - rewrite Hex. redw. rewrite handleError_nil. redw. rewrite Hid. redw.
      rewrite handleOk_true. redw. rewrite Hver. redw. rewrite handleError_err.
      redw. cbn [snd]. keeps. }
  split; [exact Hs | now rewrite Hs].
Qed.

End SessionEffects.

Local Abbreviation ready :=
  (callbackReady IDTokenVerifier IDToken ClaimsMap Verify Exchange
     idTokenClaims jsonMarshal).
Local Abbreviation failsLater :=
  (CallbackFailsLater IDTokenVerifier IDToken ClaimsMap Verify Exchange
     idTokenClaims jsonMarshal).

Lemma ready_unique verifier config w raw cj raw' cj' :
  ready verifier config w raw cj -> ready verifier config w raw' cj' ->
  raw' = raw /\ cj' = cj.
Proof.
  intros (tok & idt & cl & url & _ & Hex & Hid & Hver & Hcl & Hjs & _)
         (tok' & idt' & cl' & url' & _ & Hex' & Hid' & Hver' & Hcl' & Hjs' & _).
  assert (tok' = tok) as -> by congruence.
  assert (raw' = raw) as -> by congruence.
  assert (idt' = idt) as -> by congruence.
  assert (cl' = cl) as -> by congruence.
  split; congruence.
Qed.

Lemma failsLater_not_ready verifier config w raw cj :
  failsLater verifier config w -> ~ ready verifier config w raw cj.
Proof.
  intros Hf (tok & idt & cl & url & _ & Hex & Hid & Hver & Hcl & Hjs & Hurl).
  destruct Hf as [e He | tok' He Hno | tok' raw' e He Hi Hv
                 | tok' raw' idt' e He Hi Hv Hc
                 | tok' raw' idt' cl' e He Hi Hv Hc Hj
                 | tok' raw' idt' cl' cj' He Hi Hv Hc Hj Hno].
  - congruence.
  - assert (tok' = tok) as -> by congruence. exact (Hno raw Hid).
  - assert (tok' = tok) as -> by congruence.
    assert (raw' = raw) as -> by congruence. congruence.
  - assert (tok' = tok) as -> by congruence.
    assert (raw' = raw) as -> by congruence.
    assert (idt' = idt) as -> by congruence. congruence.
  - assert (tok' = tok) as -> by congruence.
    assert (raw' = raw) as -> by congruence.
    assert (idt' = idt) as -> by congruence.
    assert (cl' = cl) as -> by congruence. congruence.
  - exact (Hno url Hurl).
Qed.

(** The callback writes to the session exactly when every check before the
    commit succeeds; in every other run the session is the incoming one. *)
Lemma callback_session i verifier config w :
  (forall c, session (ErrorHandler i c) = session c) ->
  (exists raw cj,
     ready verifier config w raw cj /\
     session (ctx (snd (callback i verifier config w)))
     = committed cj raw (session (ctx w))) \/
  ((forall raw cj, ~ ready verifier config w raw cj) /\
   session (ctx (snd (callback i verifier config w))) = session (ctx w)).
Proof.
  intros Herr.
  assert (Hkept : forall msg evs,
    session (ctx (snd (Ret tt, failed i msg (emits evs w)))) = session (ctx w)).
  { intros msg evs. cbn [snd]. fields. rewrite Herr. reflexivity. }
  unfold callbackHandler, bind. prims. redw.
  destruct (sessGet (session (ctx w)) "oidcState") as [| |st|] eqn:Est; redw.
  1,2,4: right; split;
         [ intros raw cj (tok & idt & cl & url & Hst & _); congruence
         | rewrite handleOk_false; redw; apply (Hkept _ []) ].
  rewrite handleOk_true. redw.
  destruct (String.eqb_spec (Query (ctx w) "state") st) as [Hq|Hq].
  2: { right; split;
         [ intros raw cj (tok & idt & cl & url & Hst & _); congruence
         | rewrite handleOk_false; redw; apply (Hkept _ []) ]. }
  rewrite handleOk_true. redw.
  set (code := Query (ctx w) "code").
  destruct (Exchange config code) as [tok|e] eqn:Eex; redw.
  2: { right; split;
         [ intros raw cj (tok & idt & cl & url & _ & Hex & _); fold code in Hex;
           congruence
         | rewrite handleError_err; redw; apply (Hkept _ [EvExchange code false]) ]. }
  rewrite handleError_nil. redw.
  destruct (Extra tok "id_token") as [| |raw|] eqn:Eid; redw.
  1,2,4: right; split;
         [ intros raw' cj (tok' & idt & cl & url & _ & Hex & Hid & _);
           fold code in Hex; assert (tok' = tok) as -> by congruence; congruence
         | rewrite handleOk_false; redw; apply (Hkept _ [EvExchange code true]) ].
  rewrite handleOk_true. redw.
  destruct (Verify verifier raw) as [idt|e] eqn:Ever; redw.
  2: { right; split.
       - intros raw' cj (tok' & idt & cl & url & _ & Hex & Hid & Hver & _).
         fold code in Hex. assert (tok' = tok) as -> by congruence.
         assert (raw' = raw) as -> by congruence. congruence.
       - rewrite handleError_err; redw. cbn [snd]. fields. rewrite Herr.
         reflexivity. }
  rewrite handleError_nil. redw.
  destruct (idTokenClaims idt) as [cl|e] eqn:Ecl; redw.
  2: { right; split.
       - intros raw' cj (tok' & idt' & cl & url & _ & Hex & Hid & Hver & Hcl & _).
         fold code in Hex. assert (tok' = tok) as -> by congruence.
         assert (raw' = raw) as -> by congruence.
         assert (idt' = idt) as -> by congruence. congruence.
       - rewrite handleError_err; redw. cbn [snd]. fields. rewrite Herr.
         reflexivity. }
  rewrite handleError_nil. redw.
  destruct (jsonMarshal cl) as [cj|e] eqn:Ejs; redw.
  2: { right; split.
       - intros raw' cj (tok' & idt' & cl' & url & _ & Hex & Hid & Hver & Hcl & Hjs & _).
         fold code in Hex. assert (tok' = tok) as -> by congruence.
         assert (raw' = raw) as -> by congruence.
         assert (idt' = idt) as -> by congruence.
         assert (cl' = cl) as -> by congruence. congruence.
       - rewrite handleError_err; redw. cbn [snd]. fields. rewrite Herr.
         reflexivity. }
  rewrite handleError_nil. redw.
  destruct (sessGet (session (ctx w)) "oidcOriginalRequestUrl") as [| |url|] eqn:Eurl;
    redw.
  1,2,4: right; split;
         [ intros raw' cj' (tok' & idt' & cl' & url & _ & _ & _ & _ & _ & _ & Hurl);
           congruence
         | rewrite handleOk_false; redw; cbn [snd]; fields; rewrite Herr;
           reflexivity ].
  rewrite handleOk_true. redw.
  left. exists raw, cj. split.
  { exists tok, idt, cl, url. rewrite Est, Hq. fold code. auto 10. }
  fold (committed cj raw (session (ctx w))).
  destruct (storeSave (committed cj raw (session (ctx w)))) as [e|].
  - rewrite handleError_err. redw. cbn [snd]. fields. rewrite Herr. reflexivity.
  - rewrite handleError_nil. redw. cbn [snd]. fields. reflexivity.
Qed.

(** C2, as the code has it: the three handlers preserve the invariant
    that an authorized session holds a non-empty ID token that was verified
    (for a verifier that rejects the empty string, and an error handler and
    protected handlers that leave the session alone).  The gate leaves the
    session alone or stores a non-empty state with [oidcAuthorized = false];
    logout leaves it alone (panic) or clears the state.  The callback
    clears the state only in its commit: when every check succeeds the
    session is the committed one (state nil, [oidcAuthorized = true]), and
    in every other run the session is the incoming one; in particular,
    when the state matched and the exchange, the [id_token] field, the
    verification, the claims, their serialisation or the stored original
    URL fails, the session still holds the state it held. *)
Theorem session_invariant_and_state_lifetime fuel i verifier config w :
  (forall c, session (ErrorHandler i c) = session c) ->
  (forall c, session (nextHandlers c) = session c) ->
  (forall t, Verify verifier "" <> Ok t) ->
  sessionInv w ->
  let wg := snd (gate fuel i verifier config w) in
  let wc := snd (callback i verifier config w) in
  let wl := snd (logout i w) in
  sessionInv wg /\ sessionInv wc /\ sessionInv wl /\
  (session (ctx wg) = session (ctx w) \/
   exists state, state <> "" /\
     sessGet (session (ctx wg)) "oidcState" = VString state /\
     sessGet (session (ctx wg)) "oidcAuthorized" = VBool false) /\
  (session (ctx wc) = session (ctx w) \/
   sessGet (session (ctx wc)) "oidcState" = VNil /\
   sessGet (session (ctx wc)) "oidcAuthorized" = VBool true) /\
  (session (ctx wl) = session (ctx w) \/
   sessGet (session (ctx wl)) "oidcState" = VNil) /\
  (forall raw cj,
     ready verifier config w raw cj ->
     session (ctx wc) = committed cj raw (session (ctx w)) /\
     sessGet (session (ctx wc)) "oidcState" = VNil) /\
  ((forall raw cj, ~ ready verifier config w raw cj) ->
   session (ctx wc) = session (ctx w)) /\
  (forall st,
     sessGet (session (ctx w)) "oidcState" = VString st ->
     Query (ctx w) "state" = st ->
     failsLater verifier config w ->
     session (ctx wc) = session (ctx w) /\
     sessGet (session (ctx wc)) "oidcState" = VString st).
Proof.
  intros Herr Hnext Hempty Hinv wg wc wl.
  destruct (gate_effect i verifier config Herr Hnext fuel w) as [Hg1 Hg2].
  destruct (callback_effect i verifier config Herr Hempty w) as [Hc1 Hc2].
  destruct (logout_effect i w) as [Hl1 Hl2].
  pose proof (callback_session i verifier config w Herr) as Hcs.
  fold wc in Hcs.
  split; [auto|]. split; [auto|]. split; [auto|].
  split; [exact Hg2|]. split; [exact Hc2|]. split; [exact Hl2|].
  split; [|split].
  - intros raw cj Hready.
    destruct Hcs as [(raw' & cj' & Hready' & Hs) | [Hnot _]].
    + destruct (ready_unique _ _ _ _ _ _ _ Hready Hready') as [-> ->].
      split; [exact Hs|]. rewrite Hs. apply sessGet_committed.
    + now destruct (Hnot raw cj).
  - intros Hnot. destruct Hcs as [(raw & cj & Hready & _) | [_ Hs]]; [|exact Hs].
    now destruct (Hnot raw cj).
  - intros st Hst Hq Hfail.
    destruct Hcs as [(raw & cj & Hready & _) | [_ Hs]].
    + now destruct (failsLater_not_ready _ _ _ raw cj Hfail).
    + split; [exact Hs | now rewrite Hs].
Qed.

(** C10: the gate and logout use unchecked assertions.  A value under
    [oidcAuthorized] that is neither nil nor a bool makes the gate panic,
    and a value under [oidcIDToken] that is neither nil nor a string makes
    logout panic, and the gate too on its pass-through branch; in each case
    nothing was pushed, logged or handed to the error handler.  On a
    well-typed session the gate does not panic, nor does logout once
    [LogoutUrl] is set.  The callback uses checked assertions: it always
    returns, and a stored state or original URL that is not a string ends in
    the error handler. *)
Theorem unchecked_assertions_panic fuel i verifier config w :
  let s := session (ctx w) in
  (boolOrNil (sessGet s "oidcAuthorized") = false ->
   exists msg, gate fuel i verifier config w = (Panic msg, w)) /\
  (sessGet s "oidcAuthorized" = VBool true \/
   (Path (reqURL (Request (ctx w))) = CallbackPath i /\
    boolOrNil (sessGet s "oidcAuthorized") = true) ->
   stringOrNil (sessGet s "oidcIDToken") = false ->
   exists msg, gate fuel i verifier config w = (Panic msg, w)) /\
  (stringOrNil (sessGet s "oidcIDToken") = false ->
   exists msg, logout i w = (Panic msg, w)) /\
  (wellTyped s ->
   (forall msg w', gate fuel i verifier config w <> (Panic msg, w')) /\
   (LogoutUrl i <> None -> forall msg w', logout i w <> (Panic msg, w'))) /\
  (exists w', callback i verifier config w = (Ret tt, w')) /\
  ((forall st, sessGet s "oidcState" <> VString st) ->
   callback i verifier config w =
     (Ret tt, failed i ("failed to parse state" +:+ " [not ok]") w)) /\
  (forall tok raw idt cl cj,
     sessGet s "oidcState" = VString (Query (ctx w) "state") ->
     Exchange config (Query (ctx w) "code") = Ok tok ->
     Extra tok "id_token" = VString raw ->
     Verify verifier raw = Ok idt ->
     idTokenClaims idt = Ok cl ->
     jsonMarshal cl = Ok cj ->
     (forall url, sessGet s "oidcOriginalRequestUrl" <> VString url) ->
     callback i verifier config w =
       (Ret tt,
        failed i ("failed to parse originalRequestUrl" +:+ " [not ok]")
          (emits [EvExchange (Query (ctx w) "code") true; EvVerify raw true] w))).
Proof.
  intros s. subst s.
  split; [|split; [|split; [|split; [intros Hwt; split|split; [|split]]]]].
  - intros Hty. unfold protectMiddleware, bind. prims. redw.
    destruct (sessGet (session (ctx w)) "oidcAuthorized"); try discriminate Hty;
      redw; eauto.
  - intros Hpass Hty. unfold protectMiddleware, bind. prims. redw.
    destruct Hpass as [-> | [Hp Hb]]; redw.
    + destruct (sessGet (session (ctx w)) "oidcIDToken"); try discriminate Hty;
        redw; eauto.
    + destruct (sessGet (session (ctx w)) "oidcAuthorized") as [|a| |];
        try discriminate Hb; redw; rewrite Hp, String.eqb_refl, ?orb_true_r;
        destruct (sessGet (session (ctx w)) "oidcIDToken"); try discriminate Hty;
        redw; eauto.
  - intros Hty. unfold logoutHandler, bind. prims. redw.
    destruct (sessGet (session (ctx w)) "oidcIDToken"); try discriminate Hty;
      redw; eauto.
  - intros msg w' Heq. pose proof (gate_ends fuel i verifier config w) as Hend.
    rewrite Heq in Hend. inversion Hend; subst; try tauto.
    match goal with Hp : forall m, Panic _ <> Panic m |- _ => now apply (Hp msg) end.
  - intros Hu msg w' Heq. pose proof (logout_ends i w) as Hend.
    rewrite Heq in Hend. destruct Hwt as [_ Ht].
    inversion Hend as [? Hty | ? ? ? Ho]; subst; [congruence|].
    destruct Ho as [[=] | [Hn _]]. contradiction.
  - destruct (callback_ends i verifier config w) as (w' & Hw' & _). eauto.
  - intros Hst. unfold callbackHandler, bind. prims. redw.
    destruct (sessGet (session (ctx w)) "oidcState") as [| |st|]; redw;
      try (now rewrite handleOk_false). now destruct (Hst st).
  - intros tok raw idt cl cj Hst Hex Hid Hver Hcl Hjs Hurl.
    unfold callbackHandler, bind. prims. redw.
    rewrite Hst. redw. rewrite handleOk_true. redw.
    rewrite String.eqb_refl, handleOk_true. redw.
    rewrite Hex. redw. rewrite handleError_nil. redw.
    rewrite Hid. redw. rewrite handleOk_true. redw.
    rewrite Hver. redw. rewrite handleError_nil. redw.
    rewrite Hcl. redw. rewrite handleError_nil. redw.
    rewrite Hjs. redw. rewrite handleError_nil. redw.
    destruct (sessGet (session (ctx w)) "oidcOriginalRequestUrl") as [| |url|]; redw;
      try (rewrite handleOk_false; f_equal; f_equal; same_world).
    now destruct (Hurl url).
Qed.

(** *** The callback, step by step *)

Ltac past_state Hst :=
  unfold callbackHandler, bind; prims; redw;
  rewrite Hst; redw; rewrite handleOk_true; redw;
  rewrite String.eqb_refl, handleOk_true; redw.

Lemma failed_at (i : InitParams) msg W W' :
  W = W' -> (Ret tt, failed i msg W) = (Ret tt, failed i msg W').
Proof. now intros ->. Qed.

Lemma callback_exchange_fails i verifier config w e :
  sessGet (session (ctx w)) "oidcState" = VString (Query (ctx w) "state") ->
  Exchange config (Query (ctx w) "code") = Err e ->
  callback i verifier config w =
    (Ret tt, failed i ("failed to exchange token" +:+ " [" +:+ e +:+ "]")
               (emits [EvExchange (Query (ctx w) "code") false] w)).
Proof.
  intros Hst Hex. past_state Hst. rewrite Hex. redw.
  rewrite handleError_err. redw. apply failed_at. same_world.
Qed.

(** Each step after the state check is a gate of its own: a failed
    exchange, a token response without a string [id_token], a failed
    verification, and failures to read or serialise the claims each end the
    callback with their own message (the cause in brackets) before the next
    step is attempted; so a failed exchange is never followed by a
    [Verify] call, and nothing is written to the session. *)
Theorem callback_stops_at_failed_step i verifier config w :
  sessGet (session (ctx w)) "oidcState" = VString (Query (ctx w) "state") ->
  let code := Query (ctx w) "code" in
  (forall e, Exchange config code = Err e ->
     callback i verifier config w =
       (Ret tt, failed i ("failed to exchange token" +:+ " [" +:+ e +:+ "]")
                  (emits [EvExchange code false] w))) /\
  (forall tok, Exchange config code = Ok tok ->
     (forall raw, Extra tok "id_token" <> VString raw) ->
     callback i verifier config w =
       (Ret tt, failed i ("no id_token field in oauth2 token" +:+ " [not ok]")
                  (emits [EvExchange code true] w))) /\
  (forall tok raw e, Exchange config code = Ok tok ->
     Extra tok "id_token" = VString raw ->
     Verify verifier raw = Err e ->
     callback i verifier config w =
       (Ret tt, failed i ("failed to verify id token" +:+ " [" +:+ e +:+ "]")
                  (emits [EvExchange code true; EvVerify raw false] w))) /\
  (forall tok raw idt e, Exchange config code = Ok tok ->
     Extra tok "id_token" = VString raw ->
     Verify verifier raw = Ok idt ->
     idTokenClaims idt = Err e ->
     callback i verifier config w =
       (Ret tt, failed i ("failed to parse id token" +:+ " [" +:+ e +:+ "]")
                  (emits [EvExchange code true; EvVerify raw true] w))) /\
  (forall tok raw idt cl e, Exchange config code = Ok tok ->
     Extra tok "id_token" = VString raw ->
     Verify verifier raw = Ok idt ->
     idTokenClaims idt = Ok cl ->
     jsonMarshal cl = Err e ->
     callback i verifier config w =
       (Ret tt, failed i ("failed to marshal id token: " +:+ " [" +:+ e +:+ "]")
                  (emits [EvExchange code true; EvVerify raw true] w))).
Proof.
  intros Hst code. subst code. split; [|split; [|split; [|split]]].
  - intros e Hex. now apply callback_exchange_fails.
  - intros tok Hex Hid. past_state Hst. rewrite Hex. redw.
    rewrite handleError_nil. redw.
    destruct (Extra tok "id_token") as [| |raw|]; redw;
      try (rewrite handleOk_false; redw; apply failed_at; same_world).
    now destruct (Hid raw).
  - intros tok raw e Hex Hid Hver. past_state Hst. rewrite Hex. redw.
    rewrite handleError_nil. redw. rewrite Hid. redw. rewrite handleOk_true. redw.
    rewrite Hver. redw. rewrite handleError_err. redw. apply failed_at. same_world.
  - intros tok raw idt e Hex Hid Hver Hcl. past_state Hst. rewrite Hex. redw.
    rewrite handleError_nil. redw. rewrite Hid. redw. rewrite handleOk_true. redw.
    rewrite Hver. redw. rewrite handleError_nil. redw.
    rewrite Hcl. redw. rewrite handleError_err. redw. apply failed_at. same_world.
  - intros tok raw idt cl e Hex Hid Hver Hcl Hjs. past_state Hst. rewrite Hex. redw.
    rewrite handleError_nil. redw. rewrite Hid. redw. rewrite handleOk_true. redw.
    rewrite Hver. redw. rewrite handleError_nil. redw.
    rewrite Hcl. redw. rewrite handleError_nil. redw.
    rewrite Hjs. redw. rewrite handleError_err. redw. apply failed_at. same_world.
Qed.

(** A request without a [state] parameter reads as the empty string, so
    against a stored empty-string state the check passes and the exchange
    is attempted: the callback does not insist on a non-empty state. *)
Theorem callback_accepts_empty_state i verifier config w e :
  sessGet (session (ctx w)) "oidcState" = VString "" ->
  reqQuery (Request (ctx w)) !! "state" = None ->
  Exchange config (Query (ctx w) "code") = Err e ->
  callback i verifier config w =
    (Ret tt, failed i ("failed to exchange token" +:+ " [" +:+ e +:+ "]")
               (emits [EvExchange (Query (ctx w) "code") false] w)).
Proof.
  intros Hst Hq Hex. apply callback_exchange_fails; [|exact Hex].
  rewrite Hst. unfold Query. now rewrite Hq.
Qed.

(** When everything succeeds up to the commit and [Save] fails, the five
    fields are already set in the session the request holds; the error
    goes to the error handler and the callback issues no redirect. *)
Theorem callback_save_failure i verifier config w tok raw idt cl cj url e :
  sessGet (session (ctx w)) "oidcState" = VString (Query (ctx w) "state") ->
  Exchange config (Query (ctx w) "code") = Ok tok ->
  Extra tok "id_token" = VString raw ->
  Verify verifier raw = Ok idt ->
  idTokenClaims idt = Ok cl ->
  jsonMarshal cl = Ok cj ->
  sessGet (session (ctx w)) "oidcOriginalRequestUrl" = VString url ->
  storeSave (committed cj raw (session (ctx w))) = Some e ->
  let evs := ([EvExchange (Query (ctx w) "code") true; EvVerify raw true]
                ++ commitSets cj raw ++ [EvSave (Some e)])%list in
  let msg := "failed save sessions." +:+ " [" +:+ e +:+ "]" in
  callback i verifier config w =
    (Ret tt,
     failed i msg
       (mkWorld (withSession (ctx w) (committed cj raw (session (ctx w))))
          (trace w ++ evs) (draws w))) /\
  count isRedirect (evs ++ [EvError msg; EvErrorHandler; EvAbort]) = 0%nat /\
  count isErrorHandlerCall (evs ++ [EvError msg; EvErrorHandler; EvAbort]) = 1%nat.
Proof.
  intros Hst Hex Hid Hver Hcl Hjs Hurl Hsave evs msg.
  split; [|split; reflexivity].
  past_state Hst. rewrite Hex. redw.
  rewrite handleError_nil. redw. rewrite Hid. redw. rewrite handleOk_true. redw.
  rewrite Hver. redw. rewrite handleError_nil. redw.
  rewrite Hcl. redw. rewrite handleError_nil. redw.
  rewrite Hjs. redw. rewrite handleError_nil. redw.
  rewrite Hurl. redw. rewrite handleOk_true. redw.
  fold (committed cj raw (session (ctx w))). rewrite Hsave, handleError_err.
  redw. apply failed_at. unfold evs, commitSets, committed. same_world.
Qed.

(** *** Exits and frames *)

Ltac counts :=
  repeat split; first [reflexivity | apply Nat.leb_le; reflexivity].

Lemma callback_exit_at i w w1 msg evs (Q : list Event -> Prop) :
  trace w1 = (trace w ++ evs)%list ->
  Q (evs ++ [EvError msg; EvErrorHandler; EvAbort])%list ->
  exists w' evs', (Ret tt, failed i msg w1) = (Ret tt, w') /\
                  trace w' = (trace w ++ evs')%list /\ Q evs'.
Proof.
  intros Ht HQ. eexists. eexists. split; [reflexivity|]. split; [|exact HQ].
  fields. rewrite Ht. now rewrite <- app_assoc.
Qed.

Lemma callback_log_counts code evs :
  CallbackLog code evs ->
  (count isErrorHandlerCall evs + count isRedirect evs = 1 /\
   count isAbort evs = count isErrorHandlerCall evs /\
   count isNext evs = 0 /\
   count isSet evs = 5 * count isSave evs /\
   count isRedirect evs <= count isSave evs <= 1)%nat.
Proof.
  intros [calls msg Hcalls | raw cj e msg | raw cj url].
  - destruct Hcalls as [Hin | (raw & ok & ->)].
    + cbn in Hin. destruct Hin as [<- | [<- | [<- | []]]]; counts.
    + counts.
  - counts.
  - counts.
Qed.

(** Every run of the callback returns, and what it logs has one of the
    three shapes of [CallbackLog], in that order: provider calls only and
    then the error, one error-handler call and the abort; or the exchange,
    the verification, the five [Set]s of the commit in the order of the
    source, one [Save], and then either the redirect (the save succeeded)
    or the error, the error handler and the abort (it failed).  So the
    callback never calls [c.Next], never saves before its [Set]s, and
    redirects only after a successful [Save]. *)
Theorem callback_exits_once i verifier config w :
  exists w' evs,
    callback i verifier config w = (Ret tt, w') /\
    trace w' = (trace w ++ evs)%list /\
    CallbackLog (Query (ctx w) "code") evs /\
    (count isErrorHandlerCall evs + count isRedirect evs = 1 /\
     count isAbort evs = count isErrorHandlerCall evs /\
     count isNext evs = 0 /\
     count isSet evs = 5 * count isSave evs /\
     count isRedirect evs <= count isSave evs <= 1)%nat.
Proof.
  assert (Hlog : exists w' evs,
    callback i verifier config w = (Ret tt, w') /\
    trace w' = (trace w ++ evs)%list /\
    CallbackLog (Query (ctx w) "code") evs).
  2: { destruct Hlog as (w' & evs & Hrun & Ht & Hl).
       exists w', evs. repeat split; auto; now apply (callback_log_counts _ _ Hl). }
  unfold callbackHandler, bind. prims. redw.
  destruct (sessGet (session (ctx w)) "oidcState") as [| |st|]; redw.
  1,2,4: rewrite handleOk_false; redw;
         apply callback_exit_at with (evs := []);
         [fields; now rewrite app_nil_r | apply LogRejected; cbn; auto].
  rewrite handleOk_true. redw.
  destruct (String.eqb (Query (ctx w) "state") st).
  2: { rewrite handleOk_false; redw.
       apply callback_exit_at with (evs := []);
         [fields; now rewrite app_nil_r | apply LogRejected; cbn; auto]. }
  rewrite handleOk_true. redw.
  set (code := Query (ctx w) "code").
  destruct (Exchange config code) as [tok|e]; redw.
  2: { rewrite handleError_err; redw.
       apply callback_exit_at with (evs := [EvExchange code false]);
         [fields; reflexivity | apply LogRejected; cbn; auto]. }
  rewrite handleError_nil. redw.
  destruct (Extra tok "id_token") as [| |raw|]; redw.
  1,2,4: rewrite handleOk_false; redw;
         apply callback_exit_at with (evs := [EvExchange code true]);
         [fields; reflexivity | apply LogRejected; cbn; auto 10].
  rewrite handleOk_true. redw.
  destruct (Verify verifier raw) as [idt|e]; redw.
  2: { rewrite handleError_err; redw.
       apply callback_exit_at
         with (evs := [EvExchange code true; EvVerify raw false]);
         [fields; now rewrite <- app_assoc | apply LogRejected; right; eauto]. }
  rewrite handleError_nil. redw.
  set (evs := [EvExchange code true; EvVerify raw true]).
  destruct (idTokenClaims idt) as [cl|e]; redw.
  2: { rewrite handleError_err; redw.
       apply callback_exit_at with (evs := evs);
         [fields; now rewrite <- app_assoc | apply LogRejected; right; eauto]. }
  rewrite handleError_nil. redw.
  destruct (jsonMarshal cl) as [cj|e]; redw.
  2: { rewrite handleError_err; redw.
       apply callback_exit_at with (evs := evs);
         [fields; now rewrite <- app_assoc | apply LogRejected; right; eauto]. }
  rewrite handleError_nil. redw.
  destruct (sessGet (session (ctx w)) "oidcOriginalRequestUrl") as [| |url|]; redw.
  1,2,4: rewrite handleOk_false; redw;
         apply callback_exit_at with (evs := evs);
         [fields; now rewrite <- app_assoc | apply LogRejected; right; eauto].
  rewrite handleOk_true. redw.
  match goal with |- context [storeSave ?s] => destruct (storeSave s) as [e|] end.
  - rewrite handleError_err. redw.
    apply callback_exit_at
      with (evs := (evs ++ commitSets cj raw ++ [EvSave (Some e)])%list);
      [fields; now rewrite <- !app_assoc | exact (LogSaveFailed code raw cj e _)].
  - rewrite handleError_nil. redw.
    exists (emit (EvRedirect StatusFound url)
              (onCtx (ctxRedirect StatusFound url)
                 (emits (evs ++ commitSets cj raw ++ [EvSave None])
                    (onCtx (fun c => withSession c (committed cj raw (session c))) w)))),
      (evs ++ commitSets cj raw ++ [EvSave None; EvRedirect StatusFound url])%list.
    split; [|split; [fields; now rewrite <- !app_assoc
                    | exact (LogCommitted code raw cj url)]].
    f_equal. unfold committed, commitSets, evs. same_world.
Qed.

(** On an unauthenticated request off the callback path the gate calls
    neither [c.Next], nor the provider, nor the error handler, nor
    [c.Abort], and it leaves the [aborted] flag and the errors of the
    context as they were, whatever the fuel and whatever [Save] returns.
    When [RandomString] returns and the save succeeds, the gate ends with
    its redirect on a request that it has not aborted. *)
Theorem gate_redirect_does_not_abort fuel i verifier config w :
  sessGet (session (ctx w)) "oidcAuthorized" = VNil \/
  sessGet (session (ctx w)) "oidcAuthorized" = VBool false ->
  Path (reqURL (Request (ctx w))) <> CallbackPath i ->
  exists o w' evs,
    gate fuel i verifier config w = (o, w') /\
    trace w' = (trace w ++ evs)%list /\
    count isNext evs = 0%nat /\ count isProviderCall evs = 0%nat /\
    count isAbort evs = 0%nat /\ count isErrorHandlerCall evs = 0%nat /\
    aborted (ctx w') = aborted (ctx w) /\
    Errors (ctx w') = Errors (ctx w) /\
    ((o = OutOfFuel /\ evs = []) \/
     (exists msg, o = Fatal msg /\ response (ctx w') = response (ctx w)) \/
     (exists state p',
        Rand.RandomString fuel src 16 (draws w) = Ret (state, p') /\
        o = Ret tt /\
        response (ctx w') = Some (StatusFound, AuthCodeURL config state) /\
        evs = (pendingLoginSets state (URLString (reqURL (Request (ctx w))))
                 ++ [EvSave None;
                     EvRedirect StatusFound (AuthCodeURL config state)])%list)).
Proof.
  intros Hauth Hpath. apply String.eqb_neq in Hpath.
  unfold protectMiddleware, bind. prims. redw.
  destruct Hauth as [-> | ->]; redw; rewrite Hpath; unfold randomString;
    (destruct (RandFacts.RandomString_outcome fuel src 16 (draws w))
       as [E|(state & p' & E)]; [lia | |]; rewrite E; redw;
     [ exists OutOfFuel, w, []; repeat split; auto using app_nil_r
     | match goal with |- context [storeSave ?s] => destruct (storeSave s) as [e|] end;
       redw; eexists; eexists;
       [ exists (pendingLoginSets state (URLString (reqURL (Request (ctx w))))
                   ++ [EvSave (Some e)])%list
       | exists (pendingLoginSets state (URLString (reqURL (Request (ctx w))))
                   ++ [EvSave None;
                       EvRedirect StatusFound (AuthCodeURL config state)])%list ];
       (split; [reflexivity|]);
       (split; [fields; unfold pendingLoginSets; now rewrite <- !app_assoc|]);
       (do 6 (split; [reflexivity|]));
       [ right; left; eexists; split; reflexivity
       | right; right; exists state, p'; repeat split; reflexivity ] ]).
Qed.

Ltac keeping He Hn :=
  fields; rewrite ?He, ?Hn; fields; try reflexivity.

Lemma sessGet_other_keys k s :
  ~ In k knownKeys ->
  (forall state url, sessGet (pendingLogin state url s) k = sessGet s k) /\
  (forall cj raw, sessGet (committed cj raw s) k = sessGet s k) /\
  sessGet (cleared s) k = sessGet s k.
Proof.
  intros Hk. unfold knownKeys in Hk. cbn in Hk.
  repeat split; intros; unfold pendingLogin, committed, cleared;
    rewrite !sessGet_set_ne; auto; intros <-; apply Hk; auto 10.
Qed.

(** The handlers write the five fields of the contract and nothing else:
    any other key of the session reads after the gate, the callback or
    logout as it read before (for an error handler and protected handlers
    that leave the session alone). *)
Theorem handlers_keep_other_keys fuel i verifier config w k :
  (forall c, session (ErrorHandler i c) = session c) ->
  (forall c, session (nextHandlers c) = session c) ->
  ~ In k knownKeys ->
  sessGet (session (ctx (snd (gate fuel i verifier config w)))) k
  = sessGet (session (ctx w)) k /\
  sessGet (session (ctx (snd (callback i verifier config w)))) k
  = sessGet (session (ctx w)) k /\
  sessGet (session (ctx (snd (logout i w)))) k
  = sessGet (session (ctx w)) k.
Proof.
  intros Herr Hnext Hk.
  destruct (sessGet_other_keys k (session (ctx w)) Hk) as (Hp & Hc & Hl).
  split; [|split].
  - destruct (gate_ends fuel i verifier config w); cbn [snd]; try reflexivity.
    + now keeping Herr Hnext.
    + now keeping Herr Hnext.
    + match goal with Hs : session (ctx _) = pendingLogin _ _ _ |- _ =>
        rewrite Hs end. apply Hp.
  - destruct (callback_ends i verifier config w) as (w' & -> & Hend). cbn [snd].
    destruct Hend; keeping Herr Hnext; auto.
  - destruct (logout_ends i w) as [msg Hty | o w' evs Ho Hs Ht]; cbn [snd];
      [reflexivity | now rewrite Hs].
Qed.

Lemma cleared_idem s : cleared (cleared s) = cleared s.
Proof.
  apply map_eq. intros k. unfold cleared, sessSet.
  rewrite !lookup_insert. repeat case_decide; reflexivity.
Qed.

(** Logout twice in a row: the first call (on a well-typed session, with
    the logout URL resolved) returns with the session cleared; a second
    call on that session returns too, redirects to the post-logout URL
    without any hint for the provider, and leaves the same cleared
    session. *)
Theorem logout_idempotent i w w2 u :
  stringOrNil (sessGet (session (ctx w)) "oidcIDToken") = true ->
  LogoutUrl i = Some u ->
  session (ctx w2) = session (ctx (snd (logout i w))) ->
  let home := URLString (PostLogoutUrl i) in
  fst (logout i w) = Ret tt /\
  session (ctx (snd (logout i w))) = cleared (session (ctx w)) /\
  logout i w2 =
    (Ret tt,
     mkWorld (ctxRedirect StatusFound home
                (withSession (ctx w2) (cleared (session (ctx w)))))
       (trace w2 ++ clearSets
          ++ [EvSave (storeSave (cleared (session (ctx w))));
              EvRedirect StatusFound home])
       (draws w2)) /\
  session (ctx (snd (logout i w2))) = session (ctx (snd (logout i w))).
Proof.
  intros Hty Hu Hs2 home.
  assert (H1 : fst (logout i w) = Ret tt /\
               session (ctx (snd (logout i w))) = cleared (session (ctx w))).
  { destruct (logout_ends i w) as [msg Hill | o w' evs Ho Hs Ht]; cbn [fst snd].
    - congruence.
    - split; [|exact Hs]. destruct Ho as [Ho | [Hnone _]]; congruence. }
  destruct H1 as [Hret Hs1]. rewrite Hs1 in Hs2.
  assert (Hrun : logout i w2 =
    (Ret tt,
     mkWorld (ctxRedirect StatusFound home
                (withSession (ctx w2) (cleared (session (ctx w)))))
       (trace w2 ++ clearSets
          ++ [EvSave (storeSave (cleared (session (ctx w))));
              EvRedirect StatusFound home])
       (draws w2))).
  { rewrite logout_local.
    - now rewrite Hs2, cleared_idem.
    - left. rewrite Hs2. apply sessGet_cleared. }
  repeat split; auto. rewrite Hrun, Hs1. reflexivity.
Qed.

Lemma callback_unreadable_state i verifier config w :
  sessGet (session (ctx w)) "oidcState" = VNil ->
  callback i verifier config w =
    (Ret tt, failed i ("failed to parse state" +:+ " [not ok]") w).
Proof.
  intros Hst. unfold callbackHandler, bind. prims. redw. rewrite Hst. redw.
  now rewrite handleOk_false.
Qed.

(** A state is good for one login: on the session a committed callback or
    a logout leaves behind, any further callback, whatever [state] and
    [code] it carries, is rejected at the first check, before the provider
    is contacted. *)
Theorem callback_rejects_replay i verifier config w2 s cj raw :
  session (ctx w2) = committed cj raw s \/ session (ctx w2) = cleared s ->
  callback i verifier config w2 =
    (Ret tt, failed i ("failed to parse state" +:+ " [not ok]") w2).
Proof.
  intros Hs. apply callback_unreadable_state.
  destruct Hs as [-> | ->]; [apply sessGet_committed | apply sessGet_cleared].
Qed.

(** *** From the first visit to the protected page *)

Ltac fields_in H :=
  cbn [ctx trace draws emit onCtx failed emits ctxError ctxAbort ctxRedirect
       withSession Request session Errors aborted response] in H.

Lemma gate_start_run fuel i verifier config w state p' :
  sessGet (session (ctx w)) "oidcAuthorized" = VNil \/
  sessGet (session (ctx w)) "oidcAuthorized" = VBool false ->
  Path (reqURL (Request (ctx w))) <> CallbackPath i ->
  Rand.RandomString fuel src 16 (draws w) = Ret (state, p') ->
  storeSave (pendingLogin state (URLString (reqURL (Request (ctx w))))
               (session (ctx w))) = None ->
  gate fuel i verifier config w =
    (Ret tt,
     mkWorld (ctxRedirect StatusFound (AuthCodeURL config state)
                (withSession (ctx w)
                   (pendingLogin state (URLString (reqURL (Request (ctx w))))
                      (session (ctx w)))))
       (trace w ++ pendingLoginSets state (URLString (reqURL (Request (ctx w))))
                ++ [EvSave None; EvRedirect StatusFound (AuthCodeURL config state)])
       p').
Proof.
  intros Hauth Hpath Hrand Hsave. apply String.eqb_neq in Hpath.
  unfold protectMiddleware, bind. prims. redw.
  destruct Hauth as [-> | ->]; redw; rewrite Hpath; unfold randomString;
    rewrite Hrand; redw; fold (pendingLogin state
      (URLString (reqURL (Request (ctx w)))) (session (ctx w)));
    rewrite Hsave; redw; f_equal; unfold pendingLogin, pendingLoginSets;
    same_world.
Qed.

Lemma callback_commit_run i verifier config w tok raw idt cl cj url :
  sessGet (session (ctx w)) "oidcState" = VString (Query (ctx w) "state") ->
  Exchange config (Query (ctx w) "code") = Ok tok ->
  Extra tok "id_token" = VString raw ->
  Verify verifier raw = Ok idt ->
  idTokenClaims idt = Ok cl ->
  jsonMarshal cl = Ok cj ->
  sessGet (session (ctx w)) "oidcOriginalRequestUrl" = VString url ->
  storeSave (committed cj raw (session (ctx w))) = None ->
  callback i verifier config w =
    (Ret tt,
     mkWorld (ctxRedirect StatusFound url
                (withSession (ctx w) (committed cj raw (session (ctx w)))))
       (trace w ++ [EvExchange (Query (ctx w) "code") true; EvVerify raw true]
                ++ commitSets cj raw ++ [EvSave None; EvRedirect StatusFound url])
       (draws w)).
Proof.
  intros Hst Hex Hid Hver Hcl Hjs Hurl Hsave.
  past_state Hst. rewrite Hex. redw.
  rewrite handleError_nil. redw. rewrite Hid. redw. rewrite handleOk_true. redw.
  rewrite Hver. redw. rewrite handleError_nil. redw.
  rewrite Hcl. redw. rewrite handleError_nil. redw.
  rewrite Hjs. redw. rewrite handleError_nil. redw.
  rewrite Hurl. redw. rewrite handleOk_true. redw.
  fold (committed cj raw (session (ctx w))). rewrite Hsave, handleError_nil.
  redw. f_equal. unfold commitSets, committed. same_world.
Qed.

Lemma gate_pass_verified fuel i verifier config w tok t :
  sessGet (session (ctx w)) "oidcAuthorized" = VBool true ->
  sessGet (session (ctx w)) "oidcIDToken" = VString tok -> tok <> "" ->
  Verify verifier tok = Ok t ->
  gate fuel i verifier config w =
    (Ret tt, mkWorld (nextHandlers (ctx w))
               (trace w ++ [EvVerify tok true; EvNext]) (draws w)).
Proof.
  intros Hauth Htok Hne Hver. apply String.eqb_neq in Hne.
  unfold protectMiddleware, bind. prims. redw. rewrite Hauth. redw.
  rewrite Htok. redw. rewrite Hne. redw. rewrite Hver. redw.
  rewrite handleError_nil. redw. f_equal. same_world.
Qed.

(** The whole login, over three requests that share the session.  The
    gate sends an unauthenticated visitor to the provider with a fresh
    state; when the provider sends the visitor back with that state and a
    code that exchanges for a verifiable ID token, the callback redirects
    to the URL the visitor first asked for; and on the session the callback
    left, the gate verifies the stored token and calls [c.Next]. *)
Theorem login_round_trip fuel i verifier config w wc w3 state p' tok raw idt cl cj :
  sessGet (session (ctx w)) "oidcAuthorized" = VNil \/
  sessGet (session (ctx w)) "oidcAuthorized" = VBool false ->
  Path (reqURL (Request (ctx w))) <> CallbackPath i ->
  Rand.RandomString fuel src 16 (draws w) = Ret (state, p') ->
  (forall s, storeSave s = None) ->
  session (ctx wc) = session (ctx (snd (gate fuel i verifier config w))) ->
  Query (ctx wc) "state" = state ->
  Exchange config (Query (ctx wc) "code") = Ok tok ->
  Extra tok "id_token" = VString raw -> raw <> "" ->
  Verify verifier raw = Ok idt ->
  idTokenClaims idt = Ok cl ->
  jsonMarshal cl = Ok cj ->
  session (ctx w3) = session (ctx (snd (callback i verifier config wc))) ->
  response (ctx (snd (gate fuel i verifier config w)))
  = Some (StatusFound, AuthCodeURL config state) /\
  fst (callback i verifier config wc) = Ret tt /\
  response (ctx (snd (callback i verifier config wc)))
  = Some (StatusFound, URLString (reqURL (Request (ctx w)))) /\
  forall fuel3,
    gate fuel3 i verifier config w3 =
      (Ret tt, mkWorld (nextHandlers (ctx w3))
                 (trace w3 ++ [EvVerify raw true; EvNext]) (draws w3)).
Proof.
  intros Hauth Hpath Hrand Hsave Hsc Hq Hex Hid Hne Hver Hcl Hjs Hs3.
  rewrite (gate_start_run fuel i verifier config w state p') in * by auto.
  cbn [snd] in Hsc. fields_in Hsc.
  destruct (sessGet_pendingLogin state (URLString (reqURL (Request (ctx w))))
              (session (ctx w))) as [Hst _].
  assert (Hurl : sessGet (session (ctx wc)) "oidcOriginalRequestUrl"
                 = VString (URLString (reqURL (Request (ctx w))))).
  { rewrite Hsc. unfold pendingLogin.
    now rewrite !sessGet_set_ne, sessGet_set_eq by discriminate. }
  rewrite <- Hsc, <- Hq in Hst.
  rewrite (callback_commit_run i verifier config wc tok raw idt cl cj
             (URLString (reqURL (Request (ctx w))))) in * by auto.
  cbn [snd fst] in *. fields_in Hs3.
  split; [reflexivity|]. split; [reflexivity|]. split; [reflexivity|].
  intros fuel3. apply gate_pass_verified with (t := idt); auto;
    rewrite Hs3; unfold committed;
    now rewrite ?sessGet_set_ne, sessGet_set_eq by discriminate.
Qed.

End HandlerFacts.

(** ** Start-up: the logout endpoint *)

Section InitFacts.

Context (URLString : URL -> string)
        (urlParse : string -> result URL)
        (Provider IDTokenVerifier : Type)
        (NewProvider : string -> result Provider)
        (providerVerifier : Provider -> string -> IDTokenVerifier)
        (providerEndpoint : Provider -> Endpoint)
        (providerClaims : Provider -> result (gmap string Value)).

Local Abbreviation init :=
  (initVerifierAndConfig URLString urlParse Provider IDTokenVerifier
     NewProvider providerVerifier providerEndpoint providerClaims).

Lemma length_append (a c : string) :
  String.length (a +:+ c) = (String.length a + String.length c)%nat.
Proof.
  induction a as [|x a IH]; [reflexivity|].
  change (String x a +:+ c) with (String x (a +:+ c)). cbn [String.length].
  now rewrite IH.
Qed.

Lemma length_list_ascii (s : string) :
  length (list_ascii_of_string s) = String.length s.
Proof. induction s as [|x s IH]; cbn; auto. Qed.

Lemma length_trimSlash (s : string) :
  (String.length (trimSlash s) <= String.length s)%nat.
Proof.
  unfold trimSlash.
  destruct (rev (list_ascii_of_string s)) as [|x r] eqn:E; [lia|].
  destruct (Ascii.eqb x "/"); [|lia].
  rewrite RandFacts.length_string_of_list_ascii, length_rev.
  rewrite <- length_list_ascii, <- (length_rev (list_ascii_of_string s)), E.
  cbn. lia.
Qed.

(** The provider names its end-session endpoint: that URL is the logout
    URL. *)
Lemma init_explicit_logout i provider md s u :
  NewProvider (URLString (Issuer i)) = Ok provider ->
  providerClaims provider = Ok md ->
  md !! "end_session_endpoint" = Some (VString s) ->
  urlParse s = Ok u ->
  exists i' verifier config,
    init i = Ret (i', verifier, config) /\ LogoutUrl i' = Some u.
Proof.
  intros Hp Hmd Hk Hu. unfold initVerifierAndConfig.
  rewrite Hp, Hmd, Hk, Hu. eauto.
Qed.

(** C7, the code on discovery metadata without [end_session_endpoint]:
    the logout URL is parsed from the issuer URL, one trailing slash
    removed, directly followed by [protocol/openid-connect/logout].  No path
    separator stands between the two, so the text is never the issuer URL
    (trimmed or not) followed by a separator and the segment; for the issuer
    [https://accounts.google.com/] it is
    [https://accounts.google.comprotocol/openid-connect/logout]. *)
Theorem default_logout_lacks_separator i provider md :
  NewProvider (URLString (Issuer i)) = Ok provider ->
  providerClaims provider = Ok md ->
  md !! "end_session_endpoint" = None ->
  let issuer := URLString (Issuer i) in
  let derived := trimSlash issuer +:+ "protocol/openid-connect/logout" in
  (forall u, urlParse derived = Ok u ->
     exists i' verifier config,
       init i = Ret (i', verifier, config) /\ LogoutUrl i' = Some u) /\
  derived <> issuer +:+ "/" +:+ "protocol/openid-connect/logout" /\
  derived <> trimSlash issuer +:+ "/" +:+ "protocol/openid-connect/logout" /\
  (issuer = "https://accounts.google.com/" ->
   derived = "https://accounts.google.comprotocol/openid-connect/logout").
Proof.
  intros Hp Hmd Hk issuer derived. repeat split.
  - intros u Hu. unfold initVerifierAndConfig. rewrite Hp, Hmd, Hk.
    cbv zeta. cbn [Issuer withClientUrl]. fold issuer. fold derived.
    rewrite Hu. eauto.
  - intros Heq. apply (f_equal String.length) in Heq. unfold derived in Heq.
    rewrite !length_append in Heq. pose proof (length_trimSlash issuer).
    cbn [String.length] in Heq. lia.
  - intros Heq. apply (f_equal String.length) in Heq. unfold derived in Heq.
    rewrite !length_append in Heq. cbn [String.length] in Heq. lia.
  - intros Hi. unfold derived. rewrite Hi. reflexivity.
Qed.

(** What a returning [initVerifierAndConfig] hands back: the logout URL
    is set, the path of the client URL is the callback path and the
    redirect URL of the configuration is that URL; client id, secret and
    scopes are copied; verifier and endpoint come from the discovered
    provider; the other parameters are untouched. *)
Theorem init_result i i' verifier config :
  init i = Ret (i', verifier, config) ->
  LogoutUrl i' <> None /\
  ClientUrl i' = setPath (ClientUrl i) (CallbackPath i) /\
  RedirectURL config = URLString (ClientUrl i') /\
  ClientID config = ClientId i /\
  cfgClientSecret config = ClientSecret i /\
  cfgScopes config = Scopes i /\
  (exists provider,
     NewProvider (URLString (Issuer i)) = Ok provider /\
     verifier = providerVerifier provider (ClientId i) /\
     cfgEndpoint config = providerEndpoint provider) /\
  Issuer i' = Issuer i /\ CallbackPath i' = CallbackPath i /\
  PostLogoutUrl i' = PostLogoutUrl i /\ ErrorHandler i' = ErrorHandler i.
Proof.
  unfold initVerifierAndConfig.
  destruct (NewProvider (URLString (Issuer i))) as [provider|e]; [|discriminate].
  destruct (providerClaims provider) as [md|e]; [|discriminate].
  cbv zeta. cbn [Issuer ClientId ClientSecret Scopes ClientUrl withClientUrl].
  destruct (md !! "end_session_endpoint") as [[| |s|]|]; try discriminate.
  - destruct (urlParse s) as [u|e]; [|discriminate].
    intros [= <- <- <-]. cbn. repeat split; eauto; discriminate.
  - destruct (urlParse _) as [u|e]; [|discriminate].
    intros [= <- <- <-]. cbn. repeat split; eauto; discriminate.
Qed.

(** How start-up fails.  A provider that cannot be discovered, metadata
    that cannot be read, and a logout URL that does not parse end the
    process in [log.Fatal]; an [end_session_endpoint] that is present but
    not a string is not reported that way: the unchecked assertion
    panics. *)
Theorem init_failure_modes i :
  (forall e, NewProvider (URLString (Issuer i)) = Err e ->
     exists msg, init i = Fatal msg) /\
  (forall provider,
     NewProvider (URLString (Issuer i)) = Ok provider ->
     (forall e, providerClaims provider = Err e -> exists msg, init i = Fatal msg) /\
     (forall md v, providerClaims provider = Ok md ->
        md !! "end_session_endpoint" = Some v ->
        (forall s, v <> VString s) ->
        exists msg, init i = Panic msg) /\
     (forall md s e, providerClaims provider = Ok md ->
        md !! "end_session_endpoint" = Some (VString s) ->
        urlParse s = Err e ->
        exists msg, init i = Fatal msg) /\
     (forall md e, providerClaims provider = Ok md ->
        md !! "end_session_endpoint" = None ->
        urlParse (trimSlash (URLString (Issuer i))
                    +:+ "protocol/openid-connect/logout") = Err e ->
        exists msg, init i = Fatal msg)).
Proof.
  split.
  - intros e Hp. unfold initVerifierAndConfig. rewrite Hp. eauto.
  - intros provider Hp. repeat split.
    + intros e Hmd. unfold initVerifierAndConfig. rewrite Hp, Hmd. eauto.
    + intros md v Hmd Hk Hv. unfold initVerifierAndConfig. rewrite Hp, Hmd, Hk.
      destruct v as [| |s|]; eauto. now destruct (Hv s).
    + intros md s e Hmd Hk Hu. unfold initVerifierAndConfig.
      rewrite Hp, Hmd, Hk, Hu. eauto.
    + intros md e Hmd Hk Hu. unfold initVerifierAndConfig. rewrite Hp, Hmd, Hk.
      cbv zeta. cbn [Issuer withClientUrl]. rewrite Hu. eauto.
Qed.

Lemma list_ascii_append (a c : string) :
  list_ascii_of_string (a +:+ c) = (list_ascii_of_string a ++ list_ascii_of_string c)%list.
Proof.
  induction a as [|x a IH]; [reflexivity|].
  change (String x a +:+ c) with (String x (a +:+ c)). cbn. now rewrite IH.
Qed.

Lemma string_of_list_append (l m : list ascii) :
  string_of_list_ascii (l ++ m) = string_of_list_ascii l +:+ string_of_list_ascii m.
Proof.
  induction l as [|x l IH]; [reflexivity|]. cbn [app string_of_list_ascii].
  rewrite IH. reflexivity.
Qed.

(** The fallback removes exactly one trailing slash of the issuer text
    before it appends the segment: a text that ends in a slash loses that
    one slash, and a text that does not end in a slash is used as it is. *)
Theorem trimSlash_one_slash (s : string) :
  trimSlash (s +:+ "/") = s /\
  ((forall t, s <> t +:+ "/") -> trimSlash s = s).
Proof.
  split.
  - unfold trimSlash. rewrite list_ascii_append, rev_app_distr. cbn.
    now rewrite rev_involutive, string_of_list_ascii_of_string.
  - intros Hno. unfold trimSlash.
    destruct (rev (list_ascii_of_string s)) as [|x r] eqn:E; [reflexivity|].
    destruct (Ascii.eqb_spec x "/"%char) as [->|Hne]; [|reflexivity].
    exfalso. apply (Hno (string_of_list_ascii (rev r))).
    rewrite <- (string_of_list_ascii_of_string s) at 1.
    rewrite <- (rev_involutive (list_ascii_of_string s)), E. cbn [rev].
    now rewrite string_of_list_append.
Qed.

End InitFacts.

(** ** Runs on the sample provider *)

Lemma sample_src_productive : Rand.productive Sample.src.
Proof.
  intros p. exists p, 0. split; [apply Nat.le_refl|].
  split; [split; [apply Z.le_refl | reflexivity] | reflexivity].
Defined.

Lemma RandomString_length_alphabet_witness :
  exists fuel s p',
    Rand.RandomString fuel Sample.src 16 0 = Ret (s, p') /\
    String.length s = 16%nat.
Proof.
  destruct (RandFacts.RandomString_length_alphabet Sample.src 16 0)
    as (fuel & s & p' & Hrun & Hlen & _).
  - exact sample_src_productive.
  - vm_compute. discriminate.
  - exists fuel, s, p'. split; [exact Hrun | exact Hlen].
Defined.

Lemma callback_bad_state_aborts_witness :
  exists msg,
    Sample.callback Sample.mismatchedReturn
    = (Ret tt, failed Sample.params msg Sample.mismatchedReturn).
Proof.
  destruct (callback_bad_state_aborts Sample.saveOk unit string string
              Sample.verify Sample.exchange Sample.claimsOf Sample.marshal
              Sample.params tt Sample.config Sample.mismatchedReturn)
    as (msg & evs & Hrun & _).
  - vm_compute. discriminate.
  - exists msg. exact Hrun.
Defined.

Lemma callback_success_commits_witness :
  sessGet (committed "{sub:alice}" "h.p.s" (session (ctx Sample.goodReturn)))
    "oidcAuthorized" = VBool true /\
  sessGet (committed "{sub:alice}" "h.p.s" (session (ctx Sample.goodReturn)))
    "oidcState" = VNil.
Proof.
  destruct (callback_success_commits Sample.saveOk unit string string
              Sample.verify Sample.exchange Sample.claimsOf
              Sample.marshal Sample.params tt Sample.config Sample.goodReturn
              (mkToken "at" "rt" (<["id_token" := VString "h.p.s"]> ∅))
              "h.p.s" "h.p.s" "sub:alice" "{sub:alice}" "/protected")
    as (_ & Hauth & Hstate & _).
  - intros t. vm_compute. discriminate.
  - intros c. vm_compute. discriminate.
  - vm_compute. reflexivity.
  - vm_compute. reflexivity.
  - vm_compute. reflexivity.
  - vm_compute. reflexivity.
  - vm_compute. reflexivity.
  - vm_compute. reflexivity.
  - vm_compute. reflexivity.
  - vm_compute. reflexivity.
  - split; [exact Hauth | exact Hstate].
Defined.


Lemma gate_passes_or_aborts_witness :
  Sample.gate Sample.saveOk 0 Sample.noToken
  = (Ret tt, mkWorld (Sample.next (ctx Sample.noToken))
               (trace Sample.noToken ++ [EvNext]) (draws Sample.noToken)) /\
  Sample.gate Sample.saveOk 0 Sample.loggedIn
  = (Ret tt, mkWorld (Sample.next (ctx Sample.loggedIn))
               (trace Sample.loggedIn ++ [EvVerify "h.p.s" true; EvNext])
               (draws Sample.loggedIn)) /\
  aborted (ctx (snd (Sample.gate Sample.saveOk 0 Sample.staleToken))) = true.
Proof.
  split; [|split].
  - apply (gate_passes_or_aborts Sample.urlString Sample.saveOk Sample.next
             unit string Sample.verify Sample.authCodeURL Sample.src 0
             Sample.params tt Sample.config Sample.noToken).
    + left. vm_compute. reflexivity.
    + vm_compute. reflexivity.
    + left. vm_compute. reflexivity.
  - apply (gate_passes_or_aborts Sample.urlString Sample.saveOk Sample.next
             unit string Sample.verify Sample.authCodeURL Sample.src 0
             Sample.params tt Sample.config Sample.loggedIn)
      with (t := "h.p.s").
    + left. vm_compute. reflexivity.
    + vm_compute. reflexivity.
    + vm_compute. reflexivity.
    + discriminate.
    + vm_compute. reflexivity.
  - destruct (gate_passes_or_aborts Sample.urlString Sample.saveOk Sample.next
                unit string Sample.verify Sample.authCodeURL Sample.src 0
                Sample.params tt Sample.config Sample.staleToken)
      as (_ & _ & Hstale).
    + left. vm_compute. reflexivity.
    + vm_compute. reflexivity.
    + destruct (Hstale "old.jwt" "oidc: malformed jwt") as (Hrun & _).
      * vm_compute. reflexivity.
      * discriminate.
      * vm_compute. reflexivity.
      * unfold Sample.gate. rewrite Hrun. reflexivity.
Defined.

Lemma logout_branches_on_id_token_witness :
  response (ctx (snd (Sample.logout Sample.saveOk Sample.noToken)))
  = Some (StatusFound, "http://example2.domain/") /\
  response (ctx (snd (Sample.logout Sample.saveOk Sample.loggedIn)))
  = Some (StatusFound,
          "https://accounts.google.com/logout?id_token_hint=h.p.s&post_logout_redirect_uri=http://example2.domain/").
Proof.
  split.
  - destruct (logout_branches_on_id_token Sample.urlString Sample.encode
                Sample.saveOk Sample.params Sample.noToken) as (Hlocal & _).
    destruct Hlocal as (Hrun & _).
    + left. vm_compute. reflexivity.
    + unfold Sample.logout. rewrite Hrun. vm_compute. reflexivity.
  - destruct (logout_branches_on_id_token Sample.urlString Sample.encode
                Sample.saveOk Sample.params Sample.loggedIn) as (_ & Hprov & _).
    unfold Sample.logout.
    rewrite (Hprov "h.p.s" (mkURL "https" "accounts.google.com" "/logout" "" "")).
    + vm_compute. reflexivity.
    + vm_compute. reflexivity.
    + discriminate.
    + reflexivity.
Defined.

Lemma save_failure_in_gate_and_logout_witness :
  fst (Sample.gate Sample.saveFails 100 Sample.firstVisit)
  = Fatal "failed save sessions. error: store unreachable" /\
  fst (Sample.logout Sample.saveFails Sample.firstVisit) = Ret tt /\
  Errors (ctx (snd (Sample.logout Sample.saveFails Sample.firstVisit))) = [] /\
  response (ctx (snd (Sample.logout Sample.saveFails Sample.firstVisit)))
  = Some (StatusFound, "http://example2.domain/").
Proof.
  destruct (save_failure_in_gate_and_logout Sample.urlString Sample.encode
              Sample.saveFails Sample.next unit string Sample.verify
              Sample.authCodeURL Sample.src 100 Sample.params tt Sample.config
              Sample.firstVisit "aaaaaaaaaaaaaaaa" 2 "store unreachable")
    as (Hgate & Hlogout & _).
  - vm_compute. reflexivity.
  - vm_compute. reflexivity.
  - vm_compute. discriminate.
  - vm_compute. reflexivity.
  - intros s. reflexivity.
  - unfold Sample.gate, Sample.logout. rewrite Hgate, Hlogout.
    repeat split.
Defined.

Lemma sample_authorizedPending_inv : sessionInv Sample.authorizedPending.
Proof.
  intros _. exists "h.p.s". split; [vm_compute; reflexivity|].
  split; [discriminate | left; reflexivity].
Defined.

Lemma session_invariant_and_state_lifetime_witness :
  sessGet (session (ctx Sample.authorizedPending)) "oidcAuthorized" = VBool true /\
  sessionInv (snd (Sample.gate Sample.saveOk 100 Sample.authorizedPending)) /\
  sessionInv (snd (Sample.callback Sample.authorizedPending)) /\
  sessionInv (snd (Sample.logout Sample.saveOk Sample.authorizedPending)) /\
  session (ctx (snd (Sample.callback Sample.authorizedPending)))
  = session (ctx Sample.authorizedPending) /\
  sessGet (session (ctx (snd (Sample.callback Sample.authorizedPending)))) "oidcState"
  = VString "S1" /\
  sessGet (session (ctx (snd (Sample.callback Sample.goodReturn)))) "oidcState" = VNil.
Proof.
  destruct (session_invariant_and_state_lifetime Sample.urlString Sample.encode
              Sample.saveOk Sample.next unit string string Sample.verify
              Sample.exchange Sample.authCodeURL Sample.claimsOf Sample.marshal
              Sample.src 100 Sample.params tt Sample.config Sample.authorizedPending)
    as (Hg & Hc & Hl & _ & _ & _ & _ & _ & Hkeep).
  { intros c. reflexivity. }
  { intros c. reflexivity. }
  { intros t. vm_compute. discriminate. }
  { exact sample_authorizedPending_inv. }
  destruct (Hkeep "S1") as [Hsame Hstate].
  { vm_compute. reflexivity. }
  { vm_compute. reflexivity. }
  { apply FailsExchange with (e := "oauth2: cannot fetch token").
    vm_compute. reflexivity. }
  destruct (session_invariant_and_state_lifetime Sample.urlString Sample.encode
              Sample.saveOk Sample.next unit string string Sample.verify
              Sample.exchange Sample.authCodeURL Sample.claimsOf Sample.marshal
              Sample.src 100 Sample.params tt Sample.config Sample.goodReturn)
    as (_ & _ & _ & _ & _ & _ & Hcommit & _).
  { intros c. reflexivity. }
  { intros c. reflexivity. }
  { intros t. vm_compute. discriminate. }
  { intros H. vm_compute in H. discriminate H. }
  destruct (Hcommit "h.p.s" "{sub:alice}") as [_ Hnil].
  { exists (mkToken "at" "rt" (<["id_token" := VString "h.p.s"]> ∅)),
      "h.p.s", "sub:alice", "/protected".
    repeat split; vm_compute; reflexivity. }
  split; [vm_compute; reflexivity|].
  split; [exact Hg|]. split; [exact Hc|]. split; [exact Hl|].
  split; [exact Hsame|]. split; [exact Hstate | exact Hnil].
Defined.

Lemma unchecked_assertions_panic_witness :
  (exists msg, Sample.gate Sample.saveOk 100 Sample.illTypedFlag
               = (Panic msg, Sample.illTypedFlag)) /\
  (exists msg, Sample.gate Sample.saveOk 100 Sample.illTypedToken
               = (Panic msg, Sample.illTypedToken)) /\
  (exists msg, Sample.logout Sample.saveOk Sample.illTypedToken
               = (Panic msg, Sample.illTypedToken)) /\
  (forall msg w', Sample.gate Sample.saveOk 100 Sample.loggedIn <> (Panic msg, w')) /\
  Sample.callback Sample.illTypedState
  = (Ret tt, failed Sample.params ("failed to parse state" +:+ " [not ok]")
               Sample.illTypedState).
Proof.
  split; [|split; [|split; [|split]]].
  - destruct (unchecked_assertions_panic Sample.urlString Sample.encode
             Sample.saveOk Sample.next unit string string Sample.verify
             Sample.exchange Sample.authCodeURL Sample.claimsOf Sample.marshal
             Sample.src 100 Sample.params tt Sample.config Sample.illTypedFlag)
      as (Hflag & _).
    apply Hflag. vm_compute. reflexivity.
  - destruct (unchecked_assertions_panic Sample.urlString Sample.encode
             Sample.saveOk Sample.next unit string string Sample.verify
             Sample.exchange Sample.authCodeURL Sample.claimsOf Sample.marshal
             Sample.src 100 Sample.params tt Sample.config Sample.illTypedToken)
      as (_ & Htoken & _).
    apply Htoken; [left|]; vm_compute; reflexivity.
  - destruct (unchecked_assertions_panic Sample.urlString Sample.encode
             Sample.saveOk Sample.next unit string string Sample.verify
             Sample.exchange Sample.authCodeURL Sample.claimsOf Sample.marshal
             Sample.src 100 Sample.params tt Sample.config Sample.illTypedToken)
      as (_ & _ & Hlogout & _).
    apply Hlogout. vm_compute. reflexivity.
  - destruct (unchecked_assertions_panic Sample.urlString Sample.encode
             Sample.saveOk Sample.next unit string string Sample.verify
             Sample.exchange Sample.authCodeURL Sample.claimsOf Sample.marshal
             Sample.src 100 Sample.params tt Sample.config Sample.loggedIn)
      as (_ & _ & _ & Htyped & _).
    apply Htyped. split; vm_compute; reflexivity.
  - destruct (unchecked_assertions_panic Sample.urlString Sample.encode
             Sample.saveOk Sample.next unit string string Sample.verify
             Sample.exchange Sample.authCodeURL Sample.claimsOf Sample.marshal
             Sample.src 100 Sample.params tt Sample.config Sample.illTypedState)
      as (_ & _ & _ & _ & _ & Hstate & _).
    apply Hstate. intros st. vm_compute. discriminate.
Defined.

Lemma default_logout_lacks_separator_witness :
  exists i' verifier config,
    initVerifierAndConfig Sample.urlString Sample.parse unit unit
      Sample.newProvider Sample.verifierOf Sample.endpointOf Sample.metadata
      Sample.params = Ret (i', verifier, config) /\
    LogoutUrl i'
    = Some (mkURL "" "" "https://accounts.google.comprotocol/openid-connect/logout"
              "" "").
Proof.
  destruct (default_logout_lacks_separator Sample.urlString Sample.parse unit unit
              Sample.newProvider Sample.verifierOf Sample.endpointOf
              Sample.metadata Sample.params tt
              (<["issuer" := VString "https://accounts.google.com"]> ∅))
    as (Hinit & _).
  - reflexivity.
  - reflexivity.
  - vm_compute. reflexivity.
  - apply Hinit. vm_compute. reflexivity.
Defined.

(** C2 as the specification states it fails: the state matched (it was
    read and compared), the token exchange failed, and the session still
    holds the state, ready to be presented again. *)
Lemma state_survives_failed_exchange :
  sessGet (session (ctx Sample.failedExchange)) "oidcState"
  = VString (Query (ctx Sample.failedExchange) "state") /\
  trace (snd (Sample.callback Sample.failedExchange))
  = [EvExchange "bad" false;
     EvError "failed to exchange token [oauth2: cannot fetch token]";
     EvErrorHandler; EvAbort] /\
  sessGet (session (ctx (snd (Sample.callback Sample.failedExchange)))) "oidcState"
  = VString "S1" /\
  sessGet (session (ctx (snd (Sample.callback Sample.failedExchange)))) "oidcState"
  <> VNil.
Proof.
  split; [|split; [|split]]; vm_compute; try reflexivity. discriminate.
Qed.

(** * Further properties *)

(** ** The random token generator, at its edges *)

Module RandEdges.
Import Rand.

(** [RandomString(0)] is the empty string, yet one draw is made by the
    loop's init statement; a negative length panics in [make]. *)
Theorem RandomString_zero_and_negative fuel (src : Source) (p : nat) :
  RandomString fuel src 0 p = Ret ("", S p) /\
  forall n, n < 0 -> exists msg, RandomString fuel src n p = Panic msg.
Proof.
  split.
  - unfold RandomString. cbn [Z.ltb Z.compare].
    destruct fuel; reflexivity.
  - intros n Hn. unfold RandomString.
    destruct (Z.ltb_spec n 0); [eauto | lia].
Qed.

Lemma body_frugal src n p st :
  0 <= i st -> frugal n p st -> frugal n p (body src st).
Proof.
  intros Hi (Hlow & Hr & Hp & Hbound).
  destruct (RandFacts.body_cases src st) as [[_ ->]|[_ ->]];
    unfold frugal, skip; cbn [i remain pos];
    destruct (Z.eqb_spec (remain st) 0) as [E|E]; cbn [i remain pos];
    rewrite ?RandFacts.letterIdxMax_val; repeat split; lia.
Qed.

Lemma loop_frugal src n p fuel : forall st st',
  frugal n p st -> loop fuel src st = Some st' -> frugal n p st' /\ i st' < 0.
Proof.
  induction fuel as [|fuel IH]; intros st st' Hf; simpl;
    destruct (Z.geb_spec (i st) 0) as [Hi|Hi]; try discriminate.
  - intros [= <-]. split; [exact Hf | lia].
  - intros Hrun. apply (IH _ _ (body_frugal src n p st Hi Hf) Hrun).
  - intros [= <-]. split; [exact Hf | lia].
Qed.

(** A draw yields at most ten letters: a call that returns a string of
    [n] letters has made at least [n / 10] draws, and always at least
    one. *)
Theorem RandomString_draws fuel (src : Source) (n : Z) (p : nat) s p' :
  RandomString fuel src n p = Ret (s, p') ->
  (p < p')%nat /\ n <= 10 * (Z.of_nat p' - Z.of_nat p).
Proof.
  unfold RandomString. destruct (Z.ltb_spec n 0); [discriminate|].
  destruct (loop _ _ _) as [st|] eqn:E; [|discriminate].
  intros [= <- <-].
  assert (Hinit : frugal n p
            (mkLoop (replicate (Z.to_nat n) Ascii.zero) (n - 1) (src p)
               letterIdxMax (S p))).
  { unfold frugal. cbn [i remain pos]. rewrite RandFacts.letterIdxMax_val.
    repeat split; lia. }
  destruct (loop_frugal src n p fuel _ st Hinit E)
    as [(Hlow & Hr & Hp & Hbound) Hneg].
  split; lia.
Qed.

End RandEdges.

Lemma RandomString_draws_witness :
  (0 < 2)%nat /\ 16 <= 10 * (Z.of_nat 2 - Z.of_nat 0).
Proof.
  apply (RandEdges.RandomString_draws 100 Sample.src 16 0 "aaaaaaaaaaaaaaaa" 2).
  vm_compute. reflexivity.
Defined.

(** ** Construction *)

Section ConstructionFacts.

Context (URLString : URL -> string)
        (urlParse : string -> result URL)
        (valuesEncode : gmap string (list string) -> string)
        (storeSave : gmap string Value -> error)
        (nextHandlers : GinContext -> GinContext)
        (Provider IDTokenVerifier IDToken ClaimsMap : Type)
        (NewProvider : string -> result Provider)
        (providerVerifier : Provider -> string -> IDTokenVerifier)
        (providerEndpoint : Provider -> Endpoint)
        (providerClaims : Provider -> result (gmap string Value))
        (Verify : IDTokenVerifier -> string -> result IDToken)
        (Exchange : Config -> string -> result Token)
        (AuthCodeURL : Config -> string -> string)
        (idTokenClaims : IDToken -> result ClaimsMap)
        (jsonMarshal : ClaimsMap -> result string)
        (src : Rand.Source).

Local Abbreviation new :=
  (New URLString urlParse valuesEncode storeSave nextHandlers Provider
     IDTokenVerifier IDToken ClaimsMap NewProvider providerVerifier
     providerEndpoint providerClaims Verify Exchange AuthCodeURL idTokenClaims
     jsonMarshal src).
Local Abbreviation init :=
  (initVerifierAndConfig URLString urlParse Provider IDTokenVerifier
     NewProvider providerVerifier providerEndpoint providerClaims).

Lemma new_unfolds i m :
  new i = Ret m ->
  init i = Ret (Params _ m, Verifier _ m, OAuthConfig _ m) /\
  LogoutHandler _ m = logoutHandler URLString valuesEncode storeSave (Params _ m) /\
  CallbackHandler _ m =
    callbackHandler storeSave IDTokenVerifier IDToken ClaimsMap Verify Exchange
      idTokenClaims jsonMarshal (Params _ m) (Verifier _ m) (OAuthConfig _ m) /\
  AuthHandler _ m =
    (fun fuel => protectMiddleware URLString storeSave nextHandlers
                   IDTokenVerifier IDToken Verify AuthCodeURL src fuel
                   (Params _ m) (Verifier _ m) (OAuthConfig _ m)).
Proof.
  unfold New. destruct init as [[[i' verifier] config]| | |]; try discriminate.
  intros [= <-]. repeat split.
Qed.

(** The handlers that [New] returns are built from the parameters as
    updated at start-up, so the logout handler finds its logout URL: on
    any session whose [oidcIDToken] is absent or a string it returns with
    the session cleared and a redirect, never with a nil dereference. *)
Theorem New_logout_handler_is_safe i m w :
  new i = Ret m ->
  stringOrNil (sessGet (session (ctx w)) "oidcIDToken") = true ->
  LogoutUrl (Params _ m) <> None /\
  exists w' location,
    LogoutHandler _ m w = (Ret tt, w') /\
    session (ctx w') = cleared (session (ctx w)) /\
    response (ctx w') = Some (StatusFound, location).
Proof.
  intros Hnew Hty. destruct (new_unfolds i m Hnew) as (Hinit & -> & _).
  assert (Hu : LogoutUrl (Params _ m) <> None).
  { unfold initVerifierAndConfig in Hinit.
    destruct (NewProvider _); [|discriminate].
    destruct (providerClaims _) as [md|]; [|discriminate].
    destruct (md !! "end_session_endpoint") as [[| |s|]|]; try discriminate;
      destruct (urlParse _); try discriminate;
      injection Hinit as <- _ _; discriminate. }
  split; [exact Hu|].
  destruct (LogoutUrl (Params _ m)) as [u|] eqn:Eu; [|congruence].
  destruct (sessGet (session (ctx w)) "oidcIDToken") as [| |tok|] eqn:Htok;
    try discriminate Hty.
  - rewrite logout_local by auto. eexists. eexists. repeat split.
  - destruct (String.eqb_spec tok "") as [->|Hne].
    + rewrite logout_local by auto. eexists. eexists. repeat split.
    + rewrite (logout_provider URLString valuesEncode storeSave (Params _ m) w tok u)
        by auto.
      eexists. eexists. repeat split.
Qed.

End ConstructionFacts.

(** ** Further runs on the sample provider *)

Lemma RandomString_zero_and_negative_witness :
  Rand.RandomString 0 Sample.src 0 5 = Ret ("", 6%nat) /\
  exists msg, Rand.RandomString 0 Sample.src (-1) 5 = Panic msg.
Proof.
  destruct (RandEdges.RandomString_zero_and_negative 0 Sample.src 5) as [Hzero Hneg].
  split; [exact Hzero | apply Hneg; reflexivity].
Defined.

Lemma callback_stops_at_failed_step_witness :
  Sample.callback Sample.failedExchange
  = (Ret tt,
     failed Sample.params
       ("failed to exchange token" +:+ " [" +:+ "oauth2: cannot fetch token" +:+ "]")
       (emits [EvExchange (Query (ctx Sample.failedExchange) "code") false]
          Sample.failedExchange)).
Proof.
  destruct (callback_stops_at_failed_step Sample.saveOk unit string string
              Sample.verify Sample.exchange Sample.claimsOf Sample.marshal
              Sample.params tt Sample.config Sample.failedExchange)
    as (Hexchange & _).
  - vm_compute. reflexivity.
  - apply Hexchange. vm_compute. reflexivity.
Defined.

Lemma callback_accepts_empty_state_witness :
  Sample.callback Sample.emptyStateReturn
  = (Ret tt,
     failed Sample.params
       ("failed to exchange token" +:+ " [" +:+ "oauth2: cannot fetch token" +:+ "]")
       (emits [EvExchange (Query (ctx Sample.emptyStateReturn) "code") false]
          Sample.emptyStateReturn)).
Proof.
  apply (callback_accepts_empty_state Sample.saveOk unit string string
           Sample.verify Sample.exchange Sample.claimsOf Sample.marshal
           Sample.params tt Sample.config Sample.emptyStateReturn).
  - vm_compute. reflexivity.
  - vm_compute. reflexivity.
  - vm_compute. reflexivity.
Defined.

Lemma callback_save_failure_witness :
  fst (callbackHandler Sample.saveFails unit string string Sample.verify
         Sample.exchange Sample.claimsOf Sample.marshal Sample.params tt
         Sample.config Sample.goodReturn) = Ret tt /\
  Errors (ctx (snd (callbackHandler Sample.saveFails unit string string
                      Sample.verify Sample.exchange Sample.claimsOf
                      Sample.marshal Sample.params tt Sample.config
                      Sample.goodReturn)))
  = ["failed save sessions. [store unreachable]"].
Proof.
  destruct (callback_save_failure Sample.saveFails unit string string
              Sample.verify Sample.exchange Sample.claimsOf Sample.marshal
              Sample.params tt Sample.config Sample.goodReturn
              (mkToken "at" "rt" (<["id_token" := VString "h.p.s"]> ∅))
              "h.p.s" "h.p.s" "sub:alice" "{sub:alice}" "/protected"
              "store unreachable")
    as (Hrun & _).
  - vm_compute. reflexivity.
  - vm_compute. reflexivity.
  - vm_compute. reflexivity.
  - vm_compute. reflexivity.
  - vm_compute. reflexivity.
  - vm_compute. reflexivity.
  - vm_compute. reflexivity.
  - vm_compute. reflexivity.
  - rewrite Hrun. split; reflexivity.
Defined.

Lemma gate_redirect_does_not_abort_witness :
  exists w',
    Sample.gate Sample.saveOk 100 Sample.firstVisit = (Ret tt, w') /\
    aborted (ctx w') = false /\
    response (ctx w')
    = Some (StatusFound, Sample.authCodeURL Sample.config "aaaaaaaaaaaaaaaa").
Proof.
  destruct (gate_redirect_does_not_abort Sample.urlString Sample.saveOk
              Sample.next unit string Sample.verify Sample.authCodeURL
              Sample.src 100 Sample.params tt Sample.config Sample.firstVisit)
    as (o & w' & evs & Hrun & _ & _ & _ & _ & _ & Haborted & _ & Hend).
  - left. vm_compute. reflexivity.
  - vm_compute. discriminate.
  - exists w'.
    assert (Ho : o = Ret tt).
    { apply (f_equal fst) in Hrun. vm_compute in Hrun. now symmetry. }
    subst o. split; [exact Hrun|]. split; [exact Haborted|].
    destruct Hend as [[Hout _] | [(msg & Hfatal & _) | (state & p' & Hrand & _ & Hresp & _)]];
      [discriminate Hout | discriminate Hfatal |].
    vm_compute in Hrand. injection Hrand as <- _. exact Hresp.
Defined.

Lemma handlers_keep_other_keys_witness :
  sessGet (session (ctx (snd (Sample.gate Sample.saveOk 100 Sample.withAppKey)))) "cart"
  = VInt 3 /\
  sessGet (session (ctx (snd (Sample.logout Sample.saveOk Sample.withAppKey)))) "cart"
  = VInt 3.
Proof.
  destruct (handlers_keep_other_keys Sample.urlString Sample.encode Sample.saveOk
              Sample.next unit string string Sample.verify Sample.exchange
              Sample.authCodeURL Sample.claimsOf Sample.marshal Sample.src 100
              Sample.params tt Sample.config Sample.withAppKey "cart")
    as (Hgate & _ & Hlogout).
  - intros c. reflexivity.
  - intros c. reflexivity.
  - vm_compute. intros H. repeat (destruct H as [H|H]; [discriminate H|]). exact H.
  - split; [exact Hgate | exact Hlogout].
Defined.

Lemma logout_idempotent_witness :
  fst (Sample.logout Sample.saveOk Sample.loggedIn) = Ret tt /\
  session (ctx (snd (Sample.logout Sample.saveOk
                       (Sample.thenRequest (Sample.request "/logout" [])
                          (snd (Sample.logout Sample.saveOk Sample.loggedIn))))))
  = session (ctx (snd (Sample.logout Sample.saveOk Sample.loggedIn))).
Proof.
  destruct (logout_idempotent Sample.urlString Sample.encode Sample.saveOk
              Sample.params Sample.loggedIn
              (Sample.thenRequest (Sample.request "/logout" [])
                 (snd (Sample.logout Sample.saveOk Sample.loggedIn)))
              (mkURL "https" "accounts.google.com" "/logout" "" ""))
    as (Hfirst & _ & _ & Hsame).
  - vm_compute. reflexivity.
  - reflexivity.
  - reflexivity.
  - split; [exact Hfirst | exact Hsame].
Defined.

Lemma callback_rejects_replay_witness :
  Sample.callback
    (Sample.thenRequest (Request (ctx Sample.goodReturn))
       (snd (Sample.callback Sample.goodReturn)))
  = (Ret tt,
     failed Sample.params ("failed to parse state" +:+ " [not ok]")
       (Sample.thenRequest (Request (ctx Sample.goodReturn))
          (snd (Sample.callback Sample.goodReturn)))).
Proof.
  apply (callback_rejects_replay Sample.saveOk unit string string
           Sample.verify Sample.exchange Sample.claimsOf Sample.marshal
           Sample.params tt Sample.config _
           (session (ctx Sample.goodReturn)) "{sub:alice}" "h.p.s").
  left. vm_compute. reflexivity.
Defined.

Lemma login_round_trip_witness :
  response (ctx (snd (Sample.gate Sample.saveOk 100 Sample.firstVisit)))
  = Some (StatusFound,
          Sample.authCodeURL Sample.config "aaaaaaaaaaaaaaaa") /\
  response (ctx (snd (Sample.callback
                        (Sample.thenRequest
                           (Sample.request "/oidc-callback"
                              [("state", ["aaaaaaaaaaaaaaaa"]); ("code", ["C1"])])
                           (snd (Sample.gate Sample.saveOk 100 Sample.firstVisit))))))
  = Some (StatusFound, "/protected").
Proof.
  destruct (login_round_trip Sample.urlString Sample.saveOk Sample.next
              unit string string Sample.verify Sample.exchange
              Sample.authCodeURL Sample.claimsOf Sample.marshal Sample.src 100
              Sample.params tt Sample.config Sample.firstVisit
              (Sample.thenRequest
                 (Sample.request "/oidc-callback"
                    [("state", ["aaaaaaaaaaaaaaaa"]); ("code", ["C1"])])
                 (snd (Sample.gate Sample.saveOk 100 Sample.firstVisit)))
              (Sample.thenRequest (Sample.request "/protected" [])
                 (snd (Sample.callback
                         (Sample.thenRequest
                            (Sample.request "/oidc-callback"
                               [("state", ["aaaaaaaaaaaaaaaa"]); ("code", ["C1"])])
                            (snd (Sample.gate Sample.saveOk 100 Sample.firstVisit))))))
              "aaaaaaaaaaaaaaaa" 2
              (mkToken "at" "rt" (<["id_token" := VString "h.p.s"]> ∅))
              "h.p.s" "h.p.s" "sub:alice" "{sub:alice}")
    as (Hgate & _ & Hcallback & _).
  - left. vm_compute. reflexivity.
  - vm_compute. discriminate.
  - vm_compute. reflexivity.
  - intros s. reflexivity.
  - vm_compute. reflexivity.
  - vm_compute. reflexivity.
  - vm_compute. reflexivity.
  - vm_compute. reflexivity.
  - discriminate.
  - vm_compute. reflexivity.
  - vm_compute. reflexivity.
  - vm_compute. reflexivity.
  - vm_compute. reflexivity.
  - split; [exact Hgate | exact Hcallback].
Defined.

Lemma init_explicit_logout_witness :
  exists i' verifier config,
    initVerifierAndConfig Sample.urlString Sample.parse unit unit
      Sample.newProvider Sample.verifierOf Sample.endpointOf
      Sample.metadataWithLogout Sample.params = Ret (i', verifier, config) /\
    LogoutUrl i' = Some (mkURL "" "" "https://issuer/end" "" "").
Proof.
  apply (init_explicit_logout Sample.urlString Sample.parse unit unit
           Sample.newProvider Sample.verifierOf Sample.endpointOf
           Sample.metadataWithLogout Sample.params tt
           (<["end_session_endpoint" := VString "https://issuer/end"]> ∅)
           "https://issuer/end").
  - reflexivity.
  - reflexivity.
  - vm_compute. reflexivity.
  - reflexivity.
Defined.

Lemma init_result_witness :
  RedirectURL
    (mkConfig "xx-xxx-xxx" "xx-xxx-xxx" (Sample.endpointOf tt)
       "http://example.domain/oidc-callback" ["openid"; "profile"; "email"])
  = Sample.urlString
      (ClientUrl
         (withLogoutUrl
            (withClientUrl Sample.params
               (setPath (ClientUrl Sample.params) (CallbackPath Sample.params)))
            (mkURL "" "" "https://issuer/end" "" ""))).
Proof.
  apply (init_result Sample.urlString Sample.parse unit unit
           Sample.newProvider Sample.verifierOf Sample.endpointOf
           Sample.metadataWithLogout Sample.params _ tt _).
  vm_compute. reflexivity.
Defined.

Lemma init_failure_modes_witness :
  exists msg,
    initVerifierAndConfig Sample.urlString Sample.parse unit unit
      Sample.noProvider Sample.verifierOf Sample.endpointOf Sample.metadata
      Sample.params = Fatal msg.
Proof.
  destruct (init_failure_modes Sample.urlString Sample.parse unit unit
              Sample.noProvider Sample.verifierOf Sample.endpointOf
              Sample.metadata Sample.params) as (Hprovider & _).
  apply (Hprovider "dial tcp: no route to host"). reflexivity.
Defined.

Lemma trimSlash_one_slash_witness :
  trimSlash ("https://issuer" +:+ "/") = "https://issuer" /\
  trimSlash "" = "".
Proof.
  split.
  - exact (proj1 (trimSlash_one_slash "https://issuer")).
  - apply (proj2 (trimSlash_one_slash "")).
    intros t H. destruct t; vm_compute in H; discriminate H.
Defined.

Lemma New_logout_handler_is_safe_witness :
  exists m,
    New Sample.urlString Sample.parse Sample.encode Sample.saveOk Sample.next
      unit unit string string Sample.newProvider Sample.verifierOf
      Sample.endpointOf Sample.metadataWithLogout Sample.verify Sample.exchange
      Sample.authCodeURL Sample.claimsOf Sample.marshal Sample.src Sample.params
    = Ret m /\
    LogoutUrl (Params _ m) <> None.
Proof.
  assert (Hinit :
    initVerifierAndConfig Sample.urlString Sample.parse unit unit
      Sample.newProvider Sample.verifierOf Sample.endpointOf
      Sample.metadataWithLogout Sample.params
    = Ret (withLogoutUrl
             (withClientUrl Sample.params
                (setPath (ClientUrl Sample.params) (CallbackPath Sample.params)))
             (mkURL "" "" "https://issuer/end" "" ""),
           tt, Sample.config)).
  { vm_compute. reflexivity. }
  eexists. split.
  - unfold New. rewrite Hinit. reflexivity.
  - eapply (New_logout_handler_is_safe Sample.urlString Sample.parse Sample.encode
              Sample.saveOk Sample.next unit unit string string Sample.newProvider
              Sample.verifierOf Sample.endpointOf Sample.metadataWithLogout
              Sample.verify Sample.exchange Sample.authCodeURL Sample.claimsOf
              Sample.marshal Sample.src Sample.params _ Sample.loggedIn).
    + unfold New. rewrite Hinit. reflexivity.
    + vm_compute. reflexivity.
Defined.
